(** * riff-cli: option validation and Dockerfile generation

  A shallow embedding of [cmd/init.go] (the validator
  [validateAndCleanInitOptions]) and of [pkg/generate/generate_docker.go]
  (the generator [generateDockerfile]), together with the parts of the Go
  standard library they call: [strings], [path/filepath] (Unix flavour) and
  the fragment of [text/template] that the four Dockerfile templates use.

  Go strings are byte sequences; they are modelled by [string], whose
  characters are the 256 byte values. *)

From Stdlib Require Import Bool Arith List Ascii String Lia.
Import ListNotations.
Open Scope list_scope.
Open Scope string_scope.

(** ** Package [strings] *)

Module strings.

(** [strings.HasPrefix]: [len(s) >= len(prefix) && s[:len(prefix)] == prefix]. *)
Definition HasPrefix (s prefix : string) : bool :=
  Nat.leb (String.length prefix) (String.length s)
  && String.eqb (substring 0 (String.length prefix) s) prefix.

(** Does the string consist of ASCII bytes, those below [utf8.RuneSelf]? *)
Fixpoint isASCII (s : string) : bool :=
  match s with
  | EmptyString => true
  | String c s' => Nat.ltb (nat_of_ascii c) 128 && isASCII s'
  end.

(** One byte of [strings.ToLower] on a string of ASCII bytes:
    ['A' <= c && c <= 'Z'] gives [c + ('a' - 'A')]. *)
Definition lowerByte (c : ascii) : ascii :=
  let n := nat_of_ascii c in
  if Nat.leb 65 n && Nat.leb n 90 then ascii_of_nat (n + 32) else c.

Fixpoint lowerASCII (s : string) : string :=
  match s with
  | EmptyString => EmptyString
  | String c s' => String (lowerByte c) (lowerASCII s')
  end.

(** [strings.ToLower].  A string of ASCII bytes is lower-cased byte by byte.
    Any other string the library decodes into runes and maps
    [unicode.ToLower] over them; the Unicode tables are not modelled, and
    [unicodeLower s] stands for the library's [Map(unicode.ToLower, s)]. *)
Definition ToLower (unicodeLower : string -> string) (s : string) : string :=
  if isASCII s then lowerASCII s else unicodeLower s.

(** [strings.Join(elems, sep)]. *)
Fixpoint Join (elems : list string) (sep : string) : string :=
  match elems with
  | [] => ""
  | [e] => e
  | e :: rest => e ++ sep ++ Join rest sep
  end.

(** [strings.Contains(s, substr)]: [substr] occurs in [s] at some offset. *)
Fixpoint Contains (s substr : string) : bool :=
  HasPrefix s substr
  || match s with
     | EmptyString => false
     | String _ s' => Contains s' substr
     end.

End strings.

(** ** Package [path/filepath], Unix: no volume names, separator ['/'] *)

Module filepath.

Definition Separator : ascii := "/"%char.

Definition IsPathSeparator (c : ascii) : bool := Ascii.eqb c Separator.

Definition isDot (c : ascii) : bool := Ascii.eqb c "."%char.

(** [filepath.IsAbs]: [strings.HasPrefix(path, "/")]. *)
Definition IsAbs (path : string) : bool := strings.HasPrefix path "/".

(** The [".."] case of [Clean] when it can backtrack:
    [out.w--; for out.w > dotdot && !IsPathSeparator(out.index(out.w)) { out.w-- }].
    The buffer is kept reversed (its head is the byte at index [w-1]);
    [dropped] is the byte at index [out.w], the last one given up. *)
Fixpoint backtrack (dropped : ascii) (out : list ascii) (dotdot : nat)
  {struct out} : list ascii :=
  match out with
  | [] => []
  | b :: out' =>
      if Nat.ltb dotdot (List.length out) && negb (IsPathSeparator dropped)
      then backtrack b out' dotdot
      else out
  end.

(** Is the byte after this position the end of the path or a separator? *)
Definition endsElement (rest : list ascii) : bool :=
  match rest with
  | [] => true
  | c :: _ => IsPathSeparator c
  end.

(** The main loop of [Clean], one byte of [path] at a time.  [inElem] says
    that the loop is inside the inner loop copying a real path element;
    [out] is the reversed output buffer and [dotdot] the index where [".."]
    must stop. *)
Fixpoint cleanLoop (rooted : bool) (path : list ascii) (inElem : bool)
  (out : list ascii) (dotdot : nat) {struct path} : list ascii :=
  match path with
  | [] => out
  | c :: rest =>
      if inElem then
        if IsPathSeparator c
        then cleanLoop rooted rest false out dotdot
        else cleanLoop rooted rest true (c :: out) dotdot
      else if IsPathSeparator c then
        (* empty path element *)
        cleanLoop rooted rest false out dotdot
      else if isDot c && endsElement rest then
        (* . element *)
        cleanLoop rooted rest false out dotdot
      else
        let real :=
          (* real path element: add slash if needed, then copy element *)
          let w := List.length out in
          let out1 :=
            if (rooted && negb (Nat.eqb w 1)) || (negb rooted && negb (Nat.eqb w 0))
            then Separator :: out else out in
          cleanLoop rooted rest true (c :: out1) dotdot in
        match rest with
        | c' :: rest' =>
            if isDot c && isDot c' && endsElement rest' then
              (* .. element: remove to last separator *)
              match out with
              | b :: out' =>
                  if Nat.ltb dotdot (List.length out) then
                    (* can backtrack *)
                    cleanLoop rooted rest' false (backtrack b out' dotdot) dotdot
                  else if negb rooted then
                    let out2 := "."%char :: "."%char :: Separator :: out in
                    cleanLoop rooted rest' false out2 (List.length out2)
                  else cleanLoop rooted rest' false out dotdot
              | [] =>
                  if negb rooted then
                    (* cannot backtrack, but not rooted, so append .. element *)
                    let out2 := ["."%char; "."%char] in
                    cleanLoop rooted rest' false out2 (List.length out2)
                  else cleanLoop rooted rest' false out dotdot
              end
            else real
        | [] => real
        end
  end.

(** [filepath.Clean]. *)
Definition Clean (path : string) : string :=
  match list_ascii_of_string path with
  | [] => "."
  | c :: rest =>
      let rooted := IsPathSeparator c in
      let out :=
        if rooted then cleanLoop rooted rest false [Separator] 1
        else cleanLoop rooted (c :: rest) false [] 0 in
      match out with
      | [] => "."
      | _ => string_of_list_ascii (rev out)
      end
  end.

(** [filepath.Join]: the elements from the first non-empty one on, joined
    with the separator and cleaned; the empty string when all are empty. *)
Fixpoint Join (elem : list string) : string :=
  match elem with
  | [] => ""
  | e :: rest =>
      if String.eqb e "" then Join rest
      else Clean (strings.Join elem (String Separator ""))
  end.

Fixpoint dropWhile (f : ascii -> bool) (l : list ascii) : list ascii :=
  match l with
  | [] => []
  | c :: l' => if f c then dropWhile f l' else l
  end.

Fixpoint takeWhile (f : ascii -> bool) (l : list ascii) : list ascii :=
  match l with
  | [] => []
  | c :: l' => if f c then c :: takeWhile f l' else []
  end.

Definition notSeparator (c : ascii) : bool := negb (IsPathSeparator c).

(** [filepath.Dir]: everything up to and including the last separator,
    cleaned. *)
Definition Dir (path : string) : string :=
  let p := list_ascii_of_string path in
  Clean (string_of_list_ascii (rev (dropWhile notSeparator (rev p)))).

(** [filepath.Base]. *)
Definition Base (path : string) : string :=
  if String.eqb path "" then "."
  else
    (* strip trailing slashes *)
    let stripped := dropWhile IsPathSeparator (rev (list_ascii_of_string path)) in
    (* find the last element *)
    let last := rev (takeWhile notSeparator stripped) in
    match last with
    | [] => String Separator ""   (* it had only slashes *)
    | _ => string_of_list_ascii last
    end.

(** [filepath.Abs] ([unixAbs]); [getwd] is the outcome of [os.Getwd]: the
    working directory, or the message of the error it failed with, which
    [Abs] hands on. *)
Definition Abs (getwd : string + string) (path : string) : string + string :=
  if IsAbs path then inl (Clean path)
  else match getwd with
       | inr err => inr err
       | inl wd => inl (Join [wd; path])
       end.

End filepath.

(** ** Package [text/template]: text and field actions

    The four Dockerfile templates consist of literal text and of actions of
    the form [{{.Field}}].  The model covers exactly that fragment: whatever
    else stands between the delimiters is reported as a parse error (the
    library itself accepts a larger language). *)

Module template.

Inductive Node : Type :=
| TextNode (text : string)
| FieldNode (ident : string).

Inductive ParseError : Type :=
| errUnclosedAction
| errUnexpectedInAction (action : string).

Inductive ExecError : Type :=
| errCantEvaluateField (name : string).

Record Template : Type := { Name : string; Root : list Node }.

Definition isLeftBrace (c : ascii) : bool := Ascii.eqb c "{"%char.
Definition isRightBrace (c : ascii) : bool := Ascii.eqb c "}"%char.
Definition isSpace (c : ascii) : bool :=
  Ascii.eqb c " "%char || Ascii.eqb c "009"%char.

(** [isAlphaNumeric] of the lexer, on bytes: underscore, letter or digit. *)
Definition isAlphaNumeric (c : ascii) : bool :=
  let n := nat_of_ascii c in
  Nat.eqb n 95
  || (Nat.leb 65 n && Nat.leb n 90)
  || (Nat.leb 97 n && Nat.leb n 122)
  || (Nat.leb 48 n && Nat.leb n 57).

(** The body of an action, spaces around it dropped, read as a field:
    a dot followed by a non-empty identifier. *)
Definition fieldOfAction (action : list ascii) : option string :=
  let trimmed :=
    rev (filepath.dropWhile isSpace (rev (filepath.dropWhile isSpace action))) in
  match trimmed with
  | dot :: ident =>
      if Ascii.eqb dot "."%char
         && negb (Nat.eqb (List.length ident) 0)
         && forallb isAlphaNumeric ident
      then Some (string_of_list_ascii ident)
      else None
  | [] => None
  end.

(** Text gathered so far (reversed) becomes a text node unless it is empty. *)
Definition textNode (acc : list ascii) : list Node :=
  match acc with
  | [] => []
  | _ => [TextNode (string_of_list_ascii (rev acc))]
  end.

Definition prepend (nodes : list Node) (r : list Node + ParseError)
  : list Node + ParseError :=
  match r with
  | inl rest => inl (nodes ++ rest)%list
  | inr e => inr e
  end.

(** Lexing and parsing in one pass over the bytes: outside an action look for
    the left delimiter, inside for the right one. *)
Fixpoint parseLoop (input : list ascii) (inAction : bool) (acc : list ascii)
  {struct input} : list Node + ParseError :=
  match input with
  | [] => if inAction then inr errUnclosedAction else inl (textNode acc)
  | c :: rest =>
      match rest with
      | c' :: rest' =>
          if negb inAction && isLeftBrace c && isLeftBrace c' then
            prepend (textNode acc) (parseLoop rest' true [])
          else if inAction && isRightBrace c && isRightBrace c' then
            match fieldOfAction (rev acc) with
            | Some ident => prepend [FieldNode ident] (parseLoop rest' false [])
            | None => inr (errUnexpectedInAction (string_of_list_ascii (rev acc)))
            end
          else parseLoop rest inAction (c :: acc)
      | [] => parseLoop rest inAction (c :: acc)
      end
  end.

(** [template.New(name).Parse(text)]. *)
Definition Parse (name text : string) : Template + ParseError :=
  match parseLoop (list_ascii_of_string text) false [] with
  | inl nodes => inl {| Name := name; Root := nodes |}
  | inr e => inr e
  end.

(** Walking the nodes, writing to the buffer [wr]; [data] is the value the
    template is executed on, seen through its fields by name.  What was
    written before a failure stays in the buffer. *)
Fixpoint walk (nodes : list Node) (wr : string) (data : string -> option string)
  : string * option ExecError :=
  match nodes with
  | [] => (wr, None)
  | TextNode text :: rest => walk rest (wr ++ text) data
  | FieldNode ident :: rest =>
      match data ident with
      | Some value => walk rest (wr ++ value) data
      | None => (wr, Some (errCantEvaluateField ident))
      end
  end.

(** [t.Execute(wr, data)]. *)
Definition Execute (t : Template) (wr : string) (data : string -> option string)
  : string * option ExecError :=
  walk (Root t) wr data.

End template.

(** ** Package [pkg/options] *)

Module options.

(** Modelled from the spec: the declaration of [options.InitOptions] is not
    among the sources; the fields are those of the spec's data model
    (functionPath, artifact, protocol, riffVersion), under the exported names
    the generator uses. *)
Record InitOptions : Type := {
  FunctionPath : string;
  Artifact : string;
  Protocol : string;
  RiffVersion : string
}.

(** Modelled from the spec: [options.HandlerAwareInitOptions] is
    [InitOptions] (embedded in the source, the field [toInitOptions] here)
    plus the handler. *)
Record HandlerAwareInitOptions : Type := {
  toInitOptions : InitOptions;
  Handler : string
}.

End options.

(** ** Package [pkg/generate]: [generate_docker.go] *)

Module generate.

(** Line feed and double quote, the two bytes of the templates that a string
    literal does not show well. *)
Definition nl : string := String "010"%char "".
Definition dq : string := String "034"%char "".

Definition pythonFunctionDockerfileTemplate : string :=
  nl ++ "FROM projectriff/python2-function-invoker:{{.RiffVersion}}"
  ++ nl ++ "ARG FUNCTION_MODULE={{.ArtifactBase}}"
  ++ nl ++ "ARG FUNCTION_HANDLER={{.Handler}}"
  ++ nl ++ "ADD ./{{.ArtifactBase}} /"
  ++ nl ++ "ADD ./requirements.txt /"
  ++ nl ++ "RUN  pip install --upgrade pip && pip install -r /requirements.txt"
  ++ nl ++ "ENV FUNCTION_URI file:///${FUNCTION_MODULE}?handler=${FUNCTION_HANDLER}"
  ++ nl.

Definition nodeFunctionDockerfileTemplate : string :=
  nl ++ "FROM projectriff/node-function-invoker:{{.RiffVersion}}"
  ++ nl ++ "ENV FUNCTION_URI /functions/{{.Artifact}}"
  ++ nl ++ "ADD {{.ArtifactBase}} ${FUNCTION_URI}"
  ++ nl.

Definition javaFunctionDockerfileTemplate : string :=
  nl ++ "FROM projectriff/java-function-invoker:{{.RiffVersion}}"
  ++ nl ++ "ARG FUNCTION_JAR=/functions/{{.ArtifactBase}}"
  ++ nl ++ "ARG FUNCTION_CLASS={{.Handler}}"
  ++ nl ++ "ADD target/{{.ArtifactBase}} $FUNCTION_JAR"
  ++ nl ++ "ENV FUNCTION_URI file://${FUNCTION_JAR}?handler=${FUNCTION_CLASS}"
  ++ nl.

Definition shellFunctionDockerfileTemplate : string :=
  nl ++ "FROM projectriff/shell-function-invoker:{{.RiffVersion}}"
  ++ nl ++ "ARG FUNCTION_URI=" ++ dq ++ "/{{.ArtifactBase}}" ++ dq
  ++ nl ++ "ADD {{.Artifact}} /"
  ++ nl ++ "ENV FUNCTION_URI $FUNCTION_URI"
  ++ nl.

Record DockerFileTokens : Type := {
  Artifact : string;
  ArtifactBase : string;
  RiffVersion : string;
  Handler : string
}.

(** The fields of a [DockerFileTokens] by name, as the template engine finds
    them by reflection. *)
Definition fieldByName (tokens : DockerFileTokens) (name : string)
  : option string :=
  if String.eqb name "Artifact" then Some (Artifact tokens)
  else if String.eqb name "ArtifactBase" then Some (ArtifactBase tokens)
  else if String.eqb name "RiffVersion" then Some (RiffVersion tokens)
  else if String.eqb name "Handler" then Some (Handler tokens)
  else None.

(** The errors of the generator: the one it builds itself and the two it
    passes on from the template engine. *)
Inductive error : Type :=
| errUnsupportedLanguage (language : string)
| errParse (e : template.ParseError)
| errExecute (e : template.ExecError).

(** [err.Error()] for the error built with [fmt.Sprintf]. *)
Definition unsupportedLanguageMessage (language : string) : string :=
  "unsupported language " ++ language.

(** The spec's taxonomy of generation errors. *)
Inductive ErrorKind : Type := UnsupportedLanguage | RenderError.

Definition kind (e : error) : ErrorKind :=
  match e with
  | errUnsupportedLanguage _ => UnsupportedLanguage
  | errParse _ => RenderError
  | errExecute _ => RenderError
  end.

Definition generateFunctionDockerFileContents (tmpl name : string)
  (tokens : DockerFileTokens) : string * option error :=
  match template.Parse name tmpl with
  | inr err => ("", Some (errParse err))
  | inl t =>
      let buffer := "" in
      match template.Execute t buffer (fieldByName tokens) with
      | (_, Some err) => ("", Some (errExecute err))
      | (buffer', None) => (buffer', None)
      end
  end.

Definition generateShellFunctionDockerFile (opts : options.InitOptions)
  : string * option error :=
  let dockerFileTokens := {|
    Artifact := options.Artifact opts;
    ArtifactBase := filepath.Base (options.Artifact opts);
    RiffVersion := options.RiffVersion opts;
    Handler := "" |} in
  generateFunctionDockerFileContents
    shellFunctionDockerfileTemplate "docker-shell" dockerFileTokens.

Definition generateNodeFunctionDockerFile (opts : options.InitOptions)
  : string * option error :=
  let dockerFileTokens := {|
    Artifact := options.Artifact opts;
    ArtifactBase := filepath.Base (options.Artifact opts);
    RiffVersion := options.RiffVersion opts;
    Handler := "" |} in
  generateFunctionDockerFileContents
    nodeFunctionDockerfileTemplate "docker-node" dockerFileTokens.

Definition generateJavaFunctionDockerFile (opts : options.HandlerAwareInitOptions)
  : string * option error :=
  let dockerFileTokens := {|
    Artifact := options.Artifact (options.toInitOptions opts);
    ArtifactBase := filepath.Base (options.Artifact (options.toInitOptions opts));
    RiffVersion := options.RiffVersion (options.toInitOptions opts);
    Handler := options.Handler opts |} in
  generateFunctionDockerFileContents
    javaFunctionDockerfileTemplate "docker-java" dockerFileTokens.

Definition generatePythonFunctionDockerFile (opts : options.HandlerAwareInitOptions)
  : string * option error :=
  let dockerFileTokens := {|
    Artifact := options.Artifact (options.toInitOptions opts);
    ArtifactBase := filepath.Base (options.Artifact (options.toInitOptions opts));
    RiffVersion := options.RiffVersion (options.toInitOptions opts);
    Handler := options.Handler opts |} in
  generateFunctionDockerFileContents
    pythonFunctionDockerfileTemplate "docker-python" dockerFileTokens.

Definition generateDockerfile (language : string)
  (opts : options.HandlerAwareInitOptions) : string * option error :=
  if String.eqb language "java" then generateJavaFunctionDockerFile opts
  else if String.eqb language "python" then generatePythonFunctionDockerFile opts
  else if String.eqb language "shell" then
    generateShellFunctionDockerFile (options.toInitOptions opts)
  else if String.eqb language "node" then
    generateNodeFunctionDockerFile (options.toInitOptions opts)
  else if String.eqb language "js" then
    generateNodeFunctionDockerFile (options.toInitOptions opts)
  else ("", Some (errUnsupportedLanguage language)).

(** A call [generateDockerfile(language, opts)] seen from the caller, whose
    variable [opts] is the state threaded through.  The structure is passed
    by value: the callee works on its own copy, and no function above assigns
    to a field of it. *)
Definition callGenerateDockerfile (language : string)
  (caller : options.HandlerAwareInitOptions)
  : (string * option error) * options.HandlerAwareInitOptions :=
  let opts := caller in
  (generateDockerfile language opts, caller).

(** The field names of [DockerFileTokens]. *)
Definition tokenFields : list string :=
  ["Artifact"; "ArtifactBase"; "RiffVersion"; "Handler"].

(** A template text parses, and its actions name fields of
    [DockerFileTokens] only. *)
Definition wellFormed (tmpl : string) : bool :=
  match template.Parse "" tmpl with
  | inl t =>
      forallb (fun node =>
                 match node with
                 | template.TextNode _ => true
                 | template.FieldNode ident =>
                     existsb (String.eqb ident) tokenFields
                 end)
              (template.Root t)
  | inr _ => false
  end.

End generate.

(** ** Package [pkg/osutils] and the operating system *)

Module osutils.

(** What the validator asks of its environment.  [pkg/osutils] is not among
    the sources, so [FileExists] and [IsDirectory] are taken as they come:
    any two predicates on path strings.  [Getwd] is the outcome of
    [os.Getwd], which [filepath.Abs] calls on a relative path: the working
    directory or an error message.  The answers do not change during one
    validation. *)
Record OS : Type := {
  FileExists : string -> bool;
  IsDirectory : string -> bool;
  Getwd : string + string
}.

Inductive FileKind : Type := RegularFile | Directory.

(** A file system given by its entries under their absolute, clean paths,
    for concrete runs. *)
Definition Filesystem : Type := list (string * FileKind).

Fixpoint lookup (fs : Filesystem) (path : string) : option FileKind :=
  match fs with
  | [] => None
  | (p, k) :: fs' => if String.eqb p path then Some k else lookup fs' path
  end.

(** A path is looked up as the system resolves it: a relative one against
    the working directory [cwd]. *)
Definition stat (fs : Filesystem) (cwd : string) (path : string)
  : option FileKind :=
  match filepath.Abs (inl cwd) path with
  | inl p => lookup fs p
  | inr _ => None
  end.

(** Modelled from the spec: [osutils.FileExists] and [osutils.IsDirectory]
    are missing from the sources; the spec calls them filesystem existence
    checks done by blocking stat calls.  Over a table of entries: a path
    exists when it has an entry, and is a directory when that entry is one. *)
Definition ofFilesystem (fs : Filesystem) (cwd : string) : OS := {|
  FileExists := fun path =>
    match stat fs cwd path with Some _ => true | None => false end;
  IsDirectory := fun path =>
    match stat fs cwd path with Some Directory => true | _ => false end;
  Getwd := inl cwd
|}.

End osutils.

(** ** Package [cmd]: [init.go] *)

Module cmd.

(** Modelled from the spec: the declaration of [InitOptions] of package [cmd]
    is not among the sources; these are the fields of the spec's data model,
    under the names [validateAndCleanInitOptions] uses. *)
Record InitOptions : Type := {
  functionPath : string;
  artifact : string;
  protocol : string;
  riffVersion : string
}.

(** The errors [validateAndCleanInitOptions] returns, one constructor per
    [return] of a non-nil error, with the values its message is built from. *)
Inductive error : Type :=
| errFilepathDoesNotExist (functionPath : string)
| errArtifactMustBeRelative (artifact : string)
| errAbs (cause : string)
| errArtifactMustBeRegularFile (absArtifactPath : string)
| errArtifactExternal (absArtifactPath absFilePath : string)
| errArtifactDoesNotExist (absArtifactPath : string)
| errArtifactConflicts (absArtifactPath absFilePath : string)
| errProtocolUnsupported (protocol : string).

(** The spec's taxonomy of validation errors; [OSError] is the error of
    [filepath.Abs] handed on unchanged, which the taxonomy does not name. *)
Inductive ErrorKind : Type :=
| PathNotFound
| InvalidArtifact
| ArtifactOutsideTree
| ArtifactNotFound
| ArtifactConflict
| UnsupportedProtocol
| OSError.

(** [err.Error()]: the message each error is built with.  The format of the
    fifth ends in a lone [%], so [fmt.Sprintf] reports the missing verb and
    the argument left over. *)
Definition Error (e : error) : string :=
  match e with
  | errFilepathDoesNotExist functionPath =>
      "filepath " ++ functionPath ++ " does not exist"
  | errArtifactMustBeRelative artifact =>
      "artifact " ++ artifact ++ " must be relative to function path"
  | errAbs cause => cause
  | errArtifactMustBeRegularFile absArtifactPath =>
      "artifact " ++ absArtifactPath ++ " must be a regular file"
  | errArtifactExternal absArtifactPath absFilePath =>
      "artifact " ++ absArtifactPath ++ " cannot be external to filepath "
      ++ "%!(NOVERB)" ++ "%!(EXTRA string=" ++ absFilePath ++ ")"
  | errArtifactDoesNotExist absArtifactPath =>
      "artifact " ++ absArtifactPath ++ " does not exist"
  | errArtifactConflicts absArtifactPath absFilePath =>
      "artifact " ++ absArtifactPath ++ " conflicts with filepath " ++ absFilePath
  | errProtocolUnsupported protocol =>
      "protocol " ++ protocol ++ " is unsupported " ++ String "010"%char ""
  end.

Definition kind (e : error) : ErrorKind :=
  match e with
  | errFilepathDoesNotExist _ => PathNotFound
  | errArtifactMustBeRelative _ => InvalidArtifact
  | errAbs _ => OSError
  | errArtifactMustBeRegularFile _ => InvalidArtifact
  | errArtifactExternal _ _ => ArtifactOutsideTree
  | errArtifactDoesNotExist _ => ArtifactNotFound
  | errArtifactConflicts _ _ => ArtifactConflict
  | errProtocolUnsupported _ => UnsupportedProtocol
  end.

(** The calls the validator makes to its environment, in the order made. *)
Inductive Call : Type :=
| callFileExists (path : string)
| callIsDirectory (path : string)
| callGetwd.

(** The validator works on the record its pointer argument designates; the
    state is that record together with the calls made so far. *)
Record State : Type := {
  options : InitOptions;
  calls : list Call
}.

(** A statement either goes on to the next one or returns an error from the
    function; the state is kept in both cases. *)
Inductive Flow (A : Type) : Type :=
| Next (a : A)
| Return (err : error).

Arguments Next {A} a.
Arguments Return {A} err.

Definition M (A : Type) : Type := State -> Flow A * State.

Definition ret {A : Type} (a : A) : M A := fun s => (Next a, s).

Definition bind {A B : Type} (m : M A) (k : A -> M B) : M B :=
  fun s =>
    match m s with
    | (Next a, s') => k a s'
    | (Return err, s') => (Return err, s')
    end.

Definition returnError {A : Type} (err : error) : M A :=
  fun s => (Return err, s).

Definition when (b : bool) (m : M unit) : M unit :=
  if b then m else ret tt.

Notation "x <- m ;; k" := (bind m (fun x => k))
  (at level 61, m at next level, right associativity).
Notation "m ;; k" := (bind m (fun _ => k))
  (at level 61, right associativity).

Definition getOptions : M InitOptions := fun s => (Next (options s), s).

Definition setFunctionPath (v : string) : M unit := fun s =>
  (Next tt,
   {| options := {| functionPath := v;
                    artifact := artifact (options s);
                    protocol := protocol (options s);
                    riffVersion := riffVersion (options s) |};
      calls := calls s |}).

Definition setArtifact (v : string) : M unit := fun s =>
  (Next tt,
   {| options := {| functionPath := functionPath (options s);
                    artifact := v;
                    protocol := protocol (options s);
                    riffVersion := riffVersion (options s) |};
      calls := calls s |}).

Definition setProtocol (v : string) : M unit := fun s =>
  (Next tt,
   {| options := {| functionPath := functionPath (options s);
                    artifact := artifact (options s);
                    protocol := v;
                    riffVersion := riffVersion (options s) |};
      calls := calls s |}).

Definition record (c : Call) : M unit := fun s =>
  (Next tt, {| options := options s; calls := (calls s ++ [c])%list |}).

Section Validator.

Variable os : osutils.OS.

(** The supported protocols are declared elsewhere in package [cmd]. *)
Variable supportedProtocols : list string.

(** The Unicode part of [strings.ToLower], see there. *)
Variable unicodeLower : string -> string.

Definition FileExists (path : string) : M bool :=
  record (callFileExists path) ;; ret (osutils.FileExists os path).

Definition IsDirectory (path : string) : M bool :=
  record (callIsDirectory path) ;; ret (osutils.IsDirectory os path).

(** [filepath.Abs] asks for the working directory on a relative path only. *)
Definition Abs (path : string) : M (string + string) :=
  when (negb (filepath.IsAbs path)) (record callGetwd) ;;
  ret (filepath.Abs (osutils.Getwd os) path).

(** The block [if options.artifact != "" { ... }], lines 237 to 276. *)
Definition checkArtifact : M unit :=
  options <- getOptions ;;
  when (filepath.IsAbs (artifact options))
    (returnError (errArtifactMustBeRelative (artifact options))) ;;
  abs <- Abs (functionPath options) ;;
  match abs with
  | inr err => returnError (errAbs err)
  | inl absFilePath =>
      isDir <- IsDirectory absFilePath ;;
      let absArtifactPath :=
        if isDir then filepath.Join [absFilePath; artifact options]
        else filepath.Join [filepath.Dir absFilePath; artifact options] in
      artifactIsDir <- IsDirectory absArtifactPath ;;
      when artifactIsDir
        (returnError (errArtifactMustBeRegularFile absArtifactPath)) ;;
      isDir <- IsDirectory absFilePath ;;
      let absFilePathDir :=
        if negb isDir then filepath.Dir absFilePath else absFilePath in
      when (negb (strings.HasPrefix (filepath.Dir absArtifactPath) absFilePathDir))
        (returnError (errArtifactExternal absArtifactPath absFilePath)) ;;
      artifactExists <- FileExists absArtifactPath ;;
      when (negb artifactExists)
        (returnError (errArtifactDoesNotExist absArtifactPath)) ;;
      isDir <- IsDirectory absFilePath ;;
      when (negb isDir && negb (String.eqb absFilePath absArtifactPath))
        (returnError (errArtifactConflicts absArtifactPath absFilePath))
  end.

(** The loop [for _, p := range supportedProtocols], from [supported := false]. *)
Definition isSupported (protocol : string) : bool :=
  fold_left (fun supported p => if String.eqb protocol p then true else supported)
    supportedProtocols false.

(** The block [if options.protocol != "" { ... }], lines 278 to 290. *)
Definition checkProtocol : M unit :=
  options <- getOptions ;;
  setProtocol (strings.ToLower unicodeLower (protocol options)) ;;
  options <- getOptions ;;
  when (negb (isSupported (protocol options)))
    (returnError (errProtocolUnsupported (protocol options))).

(** The first part of [validateAndCleanInitOptions]: cleaning, and the
    checks on the function path and the artifact, lines 226 to 276. *)
Definition checkPaths : M unit :=
  options <- getOptions ;;
  setFunctionPath (filepath.Clean (functionPath options)) ;;
  options <- getOptions ;;
  when (negb (String.eqb (artifact options) ""))
    (setArtifact (filepath.Clean (artifact options))) ;;
  options <- getOptions ;;
  when (negb (String.eqb (functionPath options) ""))
    (pathExists <- FileExists (functionPath options) ;;
     when (negb pathExists)
       (returnError (errFilepathDoesNotExist (functionPath options)))) ;;
  options <- getOptions ;;
  when (negb (String.eqb (artifact options) "")) checkArtifact.

(** The body of [validateAndCleanInitOptions]: the path checks, then the
    protocol check, lines 278 to 292. *)
Definition validate : M unit :=
  checkPaths ;;
  options <- getOptions ;;
  when (negb (String.eqb (protocol options) "")) checkProtocol.

(** What a call leaves behind: the error returned ([None] for [nil]), the
    record as the caller finds it afterwards, and the calls made. *)
Record Outcome : Type := {
  result : option error;
  after : InitOptions;
  trace : list Call
}.

(** [validateAndCleanInitOptions(&options)]. *)
Definition validateAndCleanInitOptions (opts : InitOptions) : Outcome :=
  match validate {| options := opts; calls := [] |} with
  | (Next _, s) =>
      {| result := None; after := options s; trace := calls s |}
  | (Return err, s) =>
      {| result := Some err; after := options s; trace := calls s |}
  end.

End Validator.

(** *** [PersistentPreRun] of [initCmd], lines 67 to 86 *)

(** What the hook writes for the user before it exits: the message of
    [ioutils.Errorf] on the arguments, the usage text of the command, the
    error handed to [ioutils.Error]. *)
Inductive Printed : Type :=
| printedInvalidArguments (args : list string)
| printedUsage
| printedError (err : error).

(** The hook either ends the process with [os.Exit] or returns, and then the
    command runs; [initOptions] is its local record as it stands at the
    return. *)
Inductive PreRunResult : Type :=
| exited (code : nat) (printed : list Printed)
| returned (initOptions : InitOptions).

Definition withFunctionPath (initOptions : InitOptions) (v : string)
  : InitOptions := {|
  functionPath := v;
  artifact := artifact initOptions;
  protocol := protocol initOptions;
  riffVersion := riffVersion initOptions |}.

(** [loaded] is what [loadInitOptions] makes of the flags and [cwd] what
    [osutils.GetCWD] returns; neither function is among the sources. *)
Definition PersistentPreRun (os : osutils.OS) (supportedProtocols : list string)
  (unicodeLower : string -> string)
  (cwd : string) (loaded : InitOptions) (args : list string) : PreRunResult :=
  let initOptions := loaded in
  let afterArgs : option InitOptions :=
    if Nat.ltb 0 (List.length args) then
      if Nat.eqb (List.length args) 1
         && String.eqb (functionPath initOptions) ""
      then Some (withFunctionPath initOptions (nth 0 args ""))
      else None
    else Some initOptions in
  match afterArgs with
  | None => exited 1 [printedInvalidArguments args; printedUsage]
  | Some initOptions =>
      let initOptions :=
        if String.eqb (functionPath initOptions) ""
        then withFunctionPath initOptions cwd
        else initOptions in
      let out := validateAndCleanInitOptions os supportedProtocols unicodeLower initOptions in
      match result out with
      | Some err => exited 1 [printedError err]
      | None => returned (after out)
      end
  end.

End cmd.

(** * Definitions used to state the properties *)

Module GenerateSpec.
Import generate.

(** The Dockerfile the spec describes for java: the invoker image at the Riff
    version, the jar and class build arguments, the copy of the jar from
    [target/] and the function URI. *)
Definition javaDockerfile (artifactBase riffVersion handler : string) : string :=
  nl ++ "FROM projectriff/java-function-invoker:" ++ riffVersion
  ++ nl ++ "ARG FUNCTION_JAR=/functions/" ++ artifactBase
  ++ nl ++ "ARG FUNCTION_CLASS=" ++ handler
  ++ nl ++ "ADD target/" ++ artifactBase ++ " $FUNCTION_JAR"
  ++ nl ++ "ENV FUNCTION_URI file://${FUNCTION_JAR}?handler=${FUNCTION_CLASS}"
  ++ nl.

(** The same for python: module and handler build arguments, the module and
    its requirements copied to the root. *)
Definition pythonDockerfile (artifactBase riffVersion handler : string) : string :=
  nl ++ "FROM projectriff/python2-function-invoker:" ++ riffVersion
  ++ nl ++ "ARG FUNCTION_MODULE=" ++ artifactBase
  ++ nl ++ "ARG FUNCTION_HANDLER=" ++ handler
  ++ nl ++ "ADD ./" ++ artifactBase ++ " /"
  ++ nl ++ "ADD ./requirements.txt /"
  ++ nl ++ "RUN  pip install --upgrade pip && pip install -r /requirements.txt"
  ++ nl ++ "ENV FUNCTION_URI file:///${FUNCTION_MODULE}?handler=${FUNCTION_HANDLER}"
  ++ nl.

(** For node and js: the function URI under [/functions] and the copy there. *)
Definition nodeDockerfile (artifact artifactBase riffVersion : string) : string :=
  nl ++ "FROM projectriff/node-function-invoker:" ++ riffVersion
  ++ nl ++ "ENV FUNCTION_URI /functions/" ++ artifact
  ++ nl ++ "ADD " ++ artifactBase ++ " ${FUNCTION_URI}"
  ++ nl.

(** For shell: the quoted build argument and the copy of the script to the
    root. *)
Definition shellDockerfile (artifact artifactBase riffVersion : string) : string :=
  nl ++ "FROM projectriff/shell-function-invoker:" ++ riffVersion
  ++ nl ++ "ARG FUNCTION_URI=" ++ dq ++ "/" ++ artifactBase ++ dq
  ++ nl ++ "ADD " ++ artifact ++ " /"
  ++ nl ++ "ENV FUNCTION_URI $FUNCTION_URI"
  ++ nl.

(** The language keys of the dispatch table. *)
Definition supportedLanguages : list string :=
  ["java"; "python"; "shell"; "node"; "js"].

(** The options of the spec's java example. *)
Definition javaExample : options.HandlerAwareInitOptions := {|
  options.toInitOptions := {|
    options.FunctionPath := ".";
    options.Artifact := "target/app.jar";
    options.Protocol := "";
    options.RiffVersion := "0.1" |};
  options.Handler := "com.example.Fn" |}.

(** The same artifact, version and handler under another function path and
    protocol. *)
Definition javaExampleElsewhere : options.HandlerAwareInitOptions := {|
  options.toInitOptions := {|
    options.FunctionPath := "/work/greeter";
    options.Artifact := "target/app.jar";
    options.Protocol := "grpc";
    options.RiffVersion := "0.1" |};
  options.Handler := "com.example.Fn" |}.

End GenerateSpec.

Module ValidateSpec.
Import cmd.

(** A test on path boundaries, to set against the prefix test of the
    validator: [dir] is [root] or lies below it, the separator after [root]
    included in the comparison. *)
Definition withinTree (root dir : string) : bool :=
  String.eqb dir root
  || strings.HasPrefix dir
       (if String.eqb root "/" then root else root ++ "/").

(** A monadic statement leaves the protocol field as it found it. *)
Definition keepsProtocol {A : Type} (m : M A) : Prop :=
  forall s, protocol (options (snd (m s))) = protocol (options s).

(** What the protocol block makes of the state [s'] the path checks left. *)
Definition protocolOutcome (supportedProtocols : list string)
  (unicodeLower : string -> string) (s' : State) : Outcome :=
  if String.eqb (protocol (options s')) "" then
    {| result := None; after := options s'; trace := calls s' |}
  else
    let lowered := strings.ToLower unicodeLower (protocol (options s')) in
    {| result := if isSupported supportedProtocols lowered then None
                 else Some (errProtocolUnsupported lowered);
       after := {| functionPath := functionPath (options s');
                   artifact := artifact (options s');
                   protocol := lowered;
                   riffVersion := riffVersion (options s') |};
       trace := calls s' |}.

(** A project directory [/a/b] with a sibling [/a/bFoo] whose name extends
    its name, and a function given as a file next to another file. *)
Definition tree : osutils.Filesystem :=
  [ ("/a", osutils.Directory);
    ("/a/b", osutils.Directory);
    ("/a/b/f.js", osutils.RegularFile);
    ("/a/b/g.js", osutils.RegularFile);
    ("/a/bFoo", osutils.Directory);
    ("/a/bFoo/x", osutils.RegularFile);
    ("/a/c", osutils.Directory);
    ("/a/c/g.js", osutils.RegularFile) ].

Definition world : osutils.OS := osutils.ofFilesystem tree "/a".

Definition protocols : list string := ["http"; "grpc"].

(** The runs below have protocols of ASCII bytes only, which never reach the
    Unicode part of [strings.ToLower]; this stands in its place. *)
Definition asciiOnly : string -> string := fun s => s.

(** The directory [/a/b] with an artifact that climbs into the sibling. *)
Definition siblingOptions : InitOptions := {|
  functionPath := "/a/b";
  artifact := "../bFoo/x";
  protocol := "";
  riffVersion := "0.1" |}.

(** The directory, given relative to the working directory and with a
    trailing separator; no artifact, no protocol. *)
Definition plainOptions : InitOptions := {|
  functionPath := "b/";
  artifact := "";
  protocol := "";
  riffVersion := "0.1" |}.

(** An absolute artifact under a function path that does not exist. *)
Definition absoluteArtifactMissingPath : InitOptions := {|
  functionPath := "/a/missing";
  artifact := "/a/b/f.js";
  protocol := "";
  riffVersion := "0.1" |}.

(** An absolute artifact under a function path that exists. *)
Definition absoluteArtifact : InitOptions := {|
  functionPath := "/a/b";
  artifact := "/a/b/f.js";
  protocol := "";
  riffVersion := "0.1" |}.

(** The function given as the file [/a/b/f.js], the artifact another file of
    the same directory. *)
Definition fileAndOtherFile : InitOptions := {|
  functionPath := "/a/b/f.js";
  artifact := "g.js";
  protocol := "";
  riffVersion := "0.1" |}.

(** The function given as the file itself and as the artifact. *)
Definition fileAndSameFile : InitOptions := {|
  functionPath := "/a/b/f.js";
  artifact := "./f.js";
  protocol := "";
  riffVersion := "0.1" |}.

(** The function given as a file, the artifact a file of another directory. *)
Definition fileAndFileOutside : InitOptions := {|
  functionPath := "/a/b/f.js";
  artifact := "../c/g.js";
  protocol := "";
  riffVersion := "0.1" |}.

(** A protocol in capitals on a function path that exists. *)
Definition upperProtocol : InitOptions := {|
  functionPath := "/a/b";
  artifact := "";
  protocol := "HTTP";
  riffVersion := "0.1" |}.

(** A protocol in capitals on a function path that does not exist. *)
Definition upperProtocolMissingPath : InitOptions := {|
  functionPath := "/a/missing";
  artifact := "";
  protocol := "HTTP";
  riffVersion := "0.1" |}.

(** A monadic statement leaves the whole record as it found it. *)
Definition keepsOptions {A : Type} (m : M A) : Prop :=
  forall s, options (snd (m s)) = options s.

(** The record after the two cleaning assignments of lines 226 to 229. *)
Definition cleanedOptions (opts : InitOptions) : InitOptions := {|
  functionPath := filepath.Clean (functionPath opts);
  artifact := if String.eqb (artifact opts) "" then ""
              else filepath.Clean (artifact opts);
  protocol := protocol opts;
  riffVersion := riffVersion opts |}.

(** The directory the artifact is resolved against and must stay under: the
    absolute function path when it is a directory, its parent otherwise. *)
Definition containmentRoot (os : osutils.OS) (absFilePath : string) : string :=
  if osutils.IsDirectory os absFilePath then absFilePath
  else filepath.Dir absFilePath.

Definition resolveArtifact (os : osutils.OS) (absFilePath artifact : string)
  : string :=
  filepath.Join [containmentRoot os absFilePath; artifact].

(** What holds of the function path and the artifact when the path checks
    have passed. *)
Definition pathsOk (os : osutils.OS) (opts : InitOptions) : Prop :=
  osutils.FileExists os (filepath.Clean (functionPath opts)) = true
  /\ (artifact opts <> "" ->
      filepath.IsAbs (filepath.Clean (artifact opts)) = false
      /\ exists absFilePath,
           filepath.Abs (osutils.Getwd os) (filepath.Clean (functionPath opts))
           = inl absFilePath
           /\ let absArtifactPath :=
                resolveArtifact os absFilePath (filepath.Clean (artifact opts)) in
              osutils.IsDirectory os absArtifactPath = false
              /\ strings.HasPrefix (filepath.Dir absArtifactPath)
                   (containmentRoot os absFilePath) = true
              /\ osutils.FileExists os absArtifactPath = true
              /\ (osutils.IsDirectory os absFilePath = false ->
                  absFilePath = absArtifactPath)).

(** What each error says about the record and the environment. *)
Definition errorCause (os : osutils.OS) (supportedProtocols : list string)
  (unicodeLower : string -> string) (opts : InitOptions) (e : error) : Prop :=
  let path := filepath.Clean (functionPath opts) in
  let cleaned := filepath.Clean (artifact opts) in
  match e with
  | errFilepathDoesNotExist p =>
      p = path /\ osutils.FileExists os p = false
  | errArtifactMustBeRelative a =>
      artifact opts <> "" /\ a = cleaned /\ filepath.IsAbs a = true
  | errAbs cause =>
      artifact opts <> "" /\ filepath.IsAbs path = false
      /\ osutils.Getwd os = inr cause
  | errArtifactMustBeRegularFile a =>
      artifact opts <> ""
      /\ exists f, filepath.Abs (osutils.Getwd os) path = inl f
                /\ a = resolveArtifact os f cleaned
                /\ osutils.IsDirectory os a = true
  | errArtifactExternal a f =>
      artifact opts <> ""
      /\ filepath.Abs (osutils.Getwd os) path = inl f
      /\ a = resolveArtifact os f cleaned
      /\ strings.HasPrefix (filepath.Dir a) (containmentRoot os f) = false
  | errArtifactDoesNotExist a =>
      artifact opts <> ""
      /\ exists f, filepath.Abs (osutils.Getwd os) path = inl f
                /\ a = resolveArtifact os f cleaned
                /\ osutils.FileExists os a = false
  | errArtifactConflicts a f =>
      artifact opts <> ""
      /\ filepath.Abs (osutils.Getwd os) path = inl f
      /\ a = resolveArtifact os f cleaned
      /\ osutils.IsDirectory os f = false /\ f <> a
  | errProtocolUnsupported p =>
      p = strings.ToLower unicodeLower (protocol opts) /\ ~ In p supportedProtocols
  end.

(** The calls a run makes when no check fails: the existence of the cleaned
    function path and, with an artifact, the working directory for a
    relative path and then the five lookups of lines 250 to 273. *)
Definition script (os : osutils.OS) (opts : InitOptions) : list Call :=
  let path := filepath.Clean (functionPath opts) in
  callFileExists path
  :: (if String.eqb (artifact opts) "" then []
      else
        (if filepath.IsAbs path then [] else [callGetwd])
        ++ match filepath.Abs (osutils.Getwd os) path with
           | inl f =>
               let a := resolveArtifact os f (filepath.Clean (artifact opts)) in
               [callIsDirectory f; callIsDirectory a; callIsDirectory f;
                callFileExists a; callIsDirectory f]
           | inr _ => []
           end)%list.

(** How many calls of the script a run has made when it returns [r]: those
    up to the lookup of the check that failed, and all of them on success
    and on the errors of the last artifact check and of the protocol block. *)
Definition callsMade (os : osutils.OS) (opts : InitOptions) (r : option error)
  : nat :=
  let getwd :=
    if filepath.IsAbs (filepath.Clean (functionPath opts)) then 0 else 1 in
  match r with
  | Some (errFilepathDoesNotExist _) => 1
  | Some (errArtifactMustBeRelative _) => 1
  | Some (errAbs _) => 1 + getwd
  | Some (errArtifactMustBeRegularFile _) => 1 + getwd + 2
  | Some (errArtifactExternal _ _) => 1 + getwd + 3
  | Some (errArtifactDoesNotExist _) => 1 + getwd + 4
  | Some (errArtifactConflicts _ _) => List.length (script os opts)
  | Some (errProtocolUnsupported _) => List.length (script os opts)
  | None => List.length (script os opts)
  end.

(** The error a run of the path checks ends with, if any. *)
Definition returnedError (flow : Flow unit) : option error :=
  match flow with
  | Next _ => None
  | Return e => Some e
  end.

(** The protocol field the validator leaves: lower-cased once the protocol
    block has run, that is on success and on its own error. *)
Definition protocolAfter (unicodeLower : string -> string)
  (opts : InitOptions) (r : option error) : string :=
  match r with
  | None => strings.ToLower unicodeLower (protocol opts)
  | Some (errProtocolUnsupported _) => strings.ToLower unicodeLower (protocol opts)
  | Some _ => protocol opts
  end.

(** The directory [/a/b], given as [b] from [/a], with an artifact written
    with a leading dot and a protocol in capitals. *)
Definition directoryArtifact : InitOptions := {|
  functionPath := "b";
  artifact := "./f.js";
  protocol := "GRPC";
  riffVersion := "0.1" |}.

(** The same with an artifact that is not there. *)
Definition directoryMissingArtifact : InitOptions := {|
  functionPath := "b";
  artifact := "h.js";
  protocol := "";
  riffVersion := "0.1" |}.

(** The function path the hook validates: the flag when given, else the one
    positional argument, else the working directory. *)
Definition chosenPath (cwd : string) (loaded : InitOptions) (args : list string)
  : string :=
  if String.eqb (functionPath loaded) "" then
    match args with
    | [arg] => if String.eqb arg "" then cwd else arg
    | _ => cwd
    end
  else functionPath loaded.

(** The flags of a call with nothing but a protocol. *)
Definition onlyProtocol : InitOptions := {|
  functionPath := "";
  artifact := "";
  protocol := "Http";
  riffVersion := "0.1" |}.

End ValidateSpec.

Module CleanSpec.
Import filepath.

(** Two shapes of the output buffer of [Clean], kept by its loop. *)

(** The buffer ends, at its bottom, with the leading separator. *)
Definition rootedBuffer (out : list ascii) : Prop :=
  exists l, out = (l ++ [Separator])%list.

(** The buffer is empty or its bottom byte is no separator. *)
Definition relativeBuffer (out : list ascii) : Prop :=
  out = [] \/ exists l x, out = (l ++ [x])%list /\ IsPathSeparator x = false.

End CleanSpec.

(** * Properties *)

(** ** Strings and paths *)

Lemma append_assoc (a b c : string) : (a ++ b) ++ c = a ++ (b ++ c).
Proof.
  induction a as [|x a IH]; simpl.
  - reflexivity.
  - now rewrite IH.
Qed.

(** The cases of the library's own table for [Clean]. *)
Example Clean_table :
  map filepath.Clean
    [ ""; "abc"; "abc/def"; "a/b/c"; "."; ".."; "../.."; "../../abc"; "/abc";
      "/"; "abc/"; "abc/def/"; "a/b/c/"; "./"; "../"; "../../"; "/abc/";
      "abc//def//ghi"; "//abc"; "///abc"; "//abc//"; "abc//";
      "abc/./def"; "/./abc/def"; "abc/.";
      "abc/def/ghi/../jkl"; "abc/def/../ghi/../jkl"; "abc/def/.."; "abc/def/../..";
      "/abc/def/../.."; "abc/def/../../.."; "/abc/def/../../..";
      "abc/def/../../../ghi/jkl/../../../mno"; "/../abc";
      "abc/./../def"; "abc//./../def"; "abc/../../././../def" ]
  = [ "."; "abc"; "abc/def"; "a/b/c"; "."; ".."; "../.."; "../../abc"; "/abc";
      "/"; "abc"; "abc/def"; "a/b/c"; "."; ".."; "../.."; "/abc";
      "abc/def/ghi"; "/abc"; "/abc"; "/abc"; "abc";
      "abc/def"; "/abc/def"; "abc";
      "abc/def/jkl"; "abc/jkl"; "abc"; ".";
      "/"; ".."; "/";
      "../../mno"; "/abc";
      "def"; "def"; "../../def" ].
Proof. vm_compute. reflexivity. Qed.

Example Dir_Base_Join_table :
  map filepath.Dir ["/foo/bar/baz.js"; "/foo/bar/baz"; "/foo/bar/baz/"; "dev.txt"; "../todo.txt"; ".."; "."; "/"; ""]
  = ["/foo/bar"; "/foo/bar"; "/foo/bar/baz"; "."; ".."; "."; "."; "/"; "."]
  /\ map filepath.Base ["/foo/bar/baz.js"; "/foo/bar/baz"; "/foo/bar/baz/"; "dev.txt"; "../todo.txt"; ".."; "."; "/"; ""]
     = ["baz.js"; "baz"; "baz"; "dev.txt"; "todo.txt"; ".."; "."; "/"; "."]
  /\ map filepath.Join [["a"; "b"]; ["a"; ""]; [""; "b"]; ["/"; "a"]; ["a/"; "b"]; ["a"; "../../b"]; [""; ""]]
     = ["a/b"; "a"; "b"; "/a"; "a/b"; "../b"; ""].
Proof. vm_compute. repeat split. Qed.

Lemma Clean_nonempty (path : string) : filepath.Clean path <> "".
Proof.
  unfold filepath.Clean.
  destruct (list_ascii_of_string path) as [|c rest]; [discriminate|].
  cbv zeta.
  match goal with
  | |- context [match ?o with [] => _ | _ :: _ => _ end] => destruct o as [|x out]
  end; [discriminate|].
  simpl rev. destruct (rev out); discriminate.
Qed.

Lemma Clean_eqb_empty (path : string) : String.eqb (filepath.Clean path) "" = false.
Proof. apply String.eqb_neq, Clean_nonempty. Qed.

(** *** Cleaning keeps a path absolute or relative *)

Module CleanFacts.
Import filepath CleanSpec.

Lemma IsAbs_cons (c : ascii) (s : string) :
  IsAbs (String c s) = IsPathSeparator c.
Proof.
  unfold IsAbs, strings.HasPrefix, IsPathSeparator, Separator. cbn.
  replace (substring 0 0 s) with "" by (destruct s; reflexivity).
  cbn. destruct (Ascii.eqb c "/"); reflexivity.
Qed.

Lemma rootedBuffer_cons (c : ascii) (out : list ascii) :
  rootedBuffer out -> rootedBuffer (c :: out).
Proof. intros [l ->]. exists (c :: l). reflexivity. Qed.

Lemma rootedBuffer_tail (b : ascii) (out : list ascii) :
  rootedBuffer (b :: out) -> 1 < List.length (b :: out) -> rootedBuffer out.
Proof.
  intros [l Hl] Hlen. destruct l as [|x l]; cbn in Hl.
  - injection Hl as -> ->. cbn in Hlen. lia.
  - injection Hl as -> ->. exists l. reflexivity.
Qed.

Lemma backtrack_rooted (dropped : ascii) (out : list ascii) :
  rootedBuffer out -> rootedBuffer (backtrack dropped out 1).
Proof.
  revert dropped. induction out as [|b out IH]; intros dropped Hout.
  - exact Hout.
  - cbn [backtrack].
    destruct (Nat.ltb 1 (List.length (b :: out))) eqn:Hlen; cbn [andb];
      [|exact Hout].
    destruct (negb (IsPathSeparator dropped)); [|exact Hout].
    apply IH. apply (rootedBuffer_tail b); [exact Hout|].
    apply Nat.ltb_lt. exact Hlen.
Qed.

Lemma cleanLoop_rooted (path : list ascii) :
  forall (inElem : bool) (out : list ascii),
    rootedBuffer out -> rootedBuffer (cleanLoop true path inElem out 1).
Proof.
  induction path as [path IH] using (well_founded_induction
    (Wf_nat.well_founded_ltof _ (@List.length ascii))).
  assert (IHtail : forall rest inElem out,
             List.length rest < List.length path ->
             rootedBuffer out ->
             rootedBuffer (cleanLoop true rest inElem out 1)).
  { intros rest inElem out Hlt. apply IH. exact Hlt. }
  clear IH. intros inElem out Hout.
  destruct path as [|c rest]; [exact Hout|].
  cbn [cleanLoop].
  destruct inElem.
  { destruct (IsPathSeparator c); apply IHtail; cbn; try lia;
      auto using rootedBuffer_cons. }
  destruct (IsPathSeparator c); [apply IHtail; cbn; [lia|exact Hout]|].
  destruct (isDot c && endsElement rest);
    [apply IHtail; cbn; [lia|exact Hout]|].
  cbv zeta. cbn [andb negb orb].
  assert (Hreal :
    rootedBuffer
      (cleanLoop true rest true
         (c :: (if negb (Nat.eqb (List.length out) 1) || false
                then Separator :: out else out)) 1)).
  { apply IHtail; [cbn; lia|]. apply rootedBuffer_cons.
    destruct (negb (Nat.eqb (List.length out) 1) || false);
      auto using rootedBuffer_cons. }
  destruct rest as [|c' rest']; [exact Hreal|].
  destruct (isDot c && isDot c' && endsElement rest'); [|exact Hreal].
  destruct out as [|b out']; [apply IHtail; cbn; [lia|exact Hout]|].
  destruct (Nat.ltb 1 (List.length (b :: out'))) eqn:Hlen.
  - apply IHtail; [cbn; lia|]. apply backtrack_rooted.
    apply (rootedBuffer_tail b); [exact Hout|]. apply Nat.ltb_lt. exact Hlen.
  - apply IHtail; [cbn; lia|exact Hout].
Qed.

Lemma relativeBuffer_cons (c : ascii) (out : list ascii) :
  relativeBuffer out -> out <> [] -> relativeBuffer (c :: out).
Proof.
  intros [->|[l [x [-> Hx]]]] Hne; [now elim Hne|].
  right. exists (c :: l), x. split; [reflexivity|exact Hx].
Qed.

Lemma relativeBuffer_single (c : ascii) :
  IsPathSeparator c = false -> relativeBuffer [c].
Proof. intros Hc. right. exists [], c. split; [reflexivity|exact Hc]. Qed.

Lemma relativeBuffer_tail (b : ascii) (out : list ascii) :
  relativeBuffer (b :: out) -> relativeBuffer out.
Proof.
  intros [H|[l [x [Hl Hx]]]]; [discriminate H|].
  destruct l as [|y l]; cbn in Hl.
  - injection Hl as -> ->. left. reflexivity.
  - injection Hl as -> ->. right. exists l, x. split; [reflexivity|exact Hx].
Qed.

Lemma backtrack_relative (dropped : ascii) (out : list ascii) (dotdot : nat) :
  relativeBuffer out -> relativeBuffer (backtrack dropped out dotdot).
Proof.
  revert dropped. induction out as [|b out IH]; intros dropped Hout.
  - exact Hout.
  - cbn [backtrack].
    destruct (Nat.ltb dotdot (List.length (b :: out))
              && negb (IsPathSeparator dropped)); [|exact Hout].
    apply IH. apply (relativeBuffer_tail b). exact Hout.
Qed.

(** A real element starts with a byte [c] that is no separator; a separator
    is put before it only on a buffer that is not empty. *)
Lemma relativeBuffer_real (c : ascii) (out : list ascii) :
  IsPathSeparator c = false ->
  relativeBuffer out ->
  relativeBuffer
    (c :: (if false || negb (Nat.eqb (List.length out) 0)
           then Separator :: out else out)).
Proof.
  intros Hc Hout. destruct out as [|b out]; cbn.
  - apply relativeBuffer_single. exact Hc.
  - apply relativeBuffer_cons; [|discriminate].
    apply relativeBuffer_cons; [exact Hout|discriminate].
Qed.

Lemma cleanLoop_relative (path : list ascii) :
  forall (inElem : bool) (out : list ascii) (dotdot : nat),
    relativeBuffer out -> (inElem = true -> out <> []) ->
    relativeBuffer (cleanLoop false path inElem out dotdot).
Proof.
  induction path as [path IH] using (well_founded_induction
    (Wf_nat.well_founded_ltof _ (@List.length ascii))).
  assert (IHtail : forall rest inElem out dotdot,
             List.length rest < List.length path ->
             relativeBuffer out -> (inElem = true -> out <> []) ->
             relativeBuffer (cleanLoop false rest inElem out dotdot)).
  { intros rest inElem out dotdot Hlt. apply IH. exact Hlt. }
  clear IH. intros inElem out dotdot Hout Hne.
  destruct path as [|c rest]; [exact Hout|].
  cbn [cleanLoop].
  destruct inElem.
  { destruct (IsPathSeparator c); apply IHtail; cbn; try lia;
      try discriminate; auto using relativeBuffer_cons. }
  destruct (IsPathSeparator c) eqn:Hc;
    [apply IHtail; cbn; [lia|exact Hout|discriminate]|].
  destruct (isDot c && endsElement rest);
    [apply IHtail; cbn; [lia|exact Hout|discriminate]|].
  cbv zeta. cbn [andb negb orb].
  assert (Hreal :
    relativeBuffer
      (cleanLoop false rest true
         (c :: (if false || negb (Nat.eqb (List.length out) 0)
                then Separator :: out else out)) dotdot)).
  { apply IHtail; [cbn; lia| |discriminate].
    apply relativeBuffer_real; assumption. }
  destruct rest as [|c' rest']; [exact Hreal|].
  destruct (isDot c && isDot c' && endsElement rest'); [|exact Hreal].
  destruct out as [|b out'].
  - apply IHtail; [cbn; lia| |discriminate].
    right. exists ["."%char], "."%char. split; reflexivity.
  - destruct (Nat.ltb dotdot (List.length (b :: out'))).
    + apply IHtail; [cbn; lia| |discriminate]. apply backtrack_relative.
      apply (relativeBuffer_tail b). exact Hout.
    + apply IHtail; [cbn; lia| |discriminate].
      do 3 (apply relativeBuffer_cons; [|discriminate]). exact Hout.
Qed.

Lemma string_of_rev_snoc (l : list ascii) (x : ascii) :
  string_of_list_ascii (rev (l ++ [x]))
  = String x (string_of_list_ascii (rev l)).
Proof. rewrite rev_app_distr. reflexivity. Qed.

(** Cleaning keeps an absolute path absolute and a relative one relative. *)
Lemma IsAbs_Clean (path : string) : IsAbs (Clean path) = IsAbs path.
Proof.
  destruct path as [|c s]; [reflexivity|].
  rewrite IsAbs_cons. unfold Clean. cbn [list_ascii_of_string]. cbv zeta.
  destruct (IsPathSeparator c) eqn:Hc.
  - destruct (cleanLoop_rooted (list_ascii_of_string s) false [Separator])
      as [l Hl]; [exists []; reflexivity|].
    rewrite Hl. destruct (l ++ [Separator])%list eqn:Hout.
    + destruct l; discriminate Hout.
    + rewrite <- Hout, string_of_rev_snoc. now rewrite IsAbs_cons.
  - pose proof (cleanLoop_relative (c :: list_ascii_of_string s) false [] 0)
      as Hrel.
    destruct Hrel as [Hnil|[l [x [Hl Hx]]]];
      [left; reflexivity|discriminate| |].
    + rewrite Hnil. reflexivity.
    + rewrite Hl. destruct (l ++ [x])%list eqn:Hout.
      * destruct l; discriminate Hout.
      * rewrite <- Hout, string_of_rev_snoc. now rewrite IsAbs_cons.
Qed.

End CleanFacts.

(** ** The generator *)

Module GenerateFacts.
Import generate GenerateSpec.

(** Parsing a fixed template is a computation; executing its nodes on
    arbitrary tokens then unfolds to a chain of appends. *)
Ltac run_template :=
  unfold generateFunctionDockerFileContents;
  match goal with
  | |- context [template.Parse ?name ?tmpl] =>
      let v := eval vm_compute in (template.Parse name tmpl) in
      replace (template.Parse name tmpl) with v by (vm_compute; reflexivity)
  end;
  unfold template.Execute; cbn [template.Root template.walk];
  cbv [fieldByName]; cbn [String.eqb Ascii.eqb Bool.eqb];
  cbn [template.walk].

Ltac normalise_text :=
  repeat rewrite append_assoc; cbn [append]; repeat rewrite append_assoc;
  try reflexivity.

Lemma java_contents (tokens : DockerFileTokens) :
  generateFunctionDockerFileContents javaFunctionDockerfileTemplate "docker-java" tokens
  = (javaDockerfile (ArtifactBase tokens) (RiffVersion tokens) (Handler tokens), None).
Proof.
  run_template. f_equal. unfold javaDockerfile, nl. normalise_text.
Qed.

Lemma python_contents (tokens : DockerFileTokens) :
  generateFunctionDockerFileContents pythonFunctionDockerfileTemplate "docker-python" tokens
  = (pythonDockerfile (ArtifactBase tokens) (RiffVersion tokens) (Handler tokens), None).
Proof.
  run_template. f_equal. unfold pythonDockerfile, nl. normalise_text.
Qed.

Lemma node_contents (tokens : DockerFileTokens) :
  generateFunctionDockerFileContents nodeFunctionDockerfileTemplate "docker-node" tokens
  = (nodeDockerfile (Artifact tokens) (ArtifactBase tokens) (RiffVersion tokens), None).
Proof.
  run_template. f_equal. unfold nodeDockerfile, nl. normalise_text.
Qed.

Lemma shell_contents (tokens : DockerFileTokens) :
  generateFunctionDockerFileContents shellFunctionDockerfileTemplate "docker-shell" tokens
  = (shellDockerfile (Artifact tokens) (ArtifactBase tokens) (RiffVersion tokens), None).
Proof.
  run_template. f_equal. unfold shellDockerfile, nl, dq. normalise_text.
Qed.

(** A template with an action left open, or naming a field the tokens do not
    have, does make the generator fail, and with the empty string. *)
Example broken_templates (tokens : DockerFileTokens) :
  generateFunctionDockerFileContents "FROM {{.RiffVersion" "broken" tokens
  = ("", Some (errParse template.errUnclosedAction))
  /\ generateFunctionDockerFileContents "FROM {{.Version}}" "broken" tokens
     = ("", Some (errExecute (template.errCantEvaluateField "Version"))).
Proof. split; reflexivity. Qed.

(** C6.  A language outside the dispatch table gets the unsupported-language
    error and the empty string, whatever the options: no text comes with the
    error. *)
Theorem generateDockerfile_unsupported
  (language : string) (opts : options.HandlerAwareInitOptions) :
  ~ In language supportedLanguages ->
  generateDockerfile language opts = ("", Some (errUnsupportedLanguage language))
  /\ kind (errUnsupportedLanguage language) = UnsupportedLanguage.
Proof.
  intros Hnot. split; [|reflexivity].
  unfold generateDockerfile.
  repeat match goal with
  | |- context [String.eqb language ?l] =>
      destruct (String.eqb_spec language l) as [->|_];
      [exfalso; apply Hnot; simpl; tauto|]
  end.
  reflexivity.
Qed.

(** The spec's example of an unsupported language. *)
Lemma generateDockerfile_unsupported_ruby :
  generateDockerfile "ruby" javaExample = ("", Some (errUnsupportedLanguage "ruby"))
  /\ kind (errUnsupportedLanguage "ruby") = UnsupportedLanguage.
Proof.
  apply (generateDockerfile_unsupported "ruby" javaExample).
  simpl. intros [H|[H|[H|[H|[H|[]]]]]]; discriminate H.
Defined.

(** C7.  The keys js and node select the same function on the same
    argument: text and error are identical. *)
Theorem generateDockerfile_js_node (opts : options.HandlerAwareInitOptions) :
  generateDockerfile "js" opts = generateDockerfile "node" opts.
Proof. reflexivity. Qed.

(** C8.  For java the generator returns, without error, the java Dockerfile
    at the basename of the artifact, the Riff version and the handler; on the
    example of the spec the text contains the class argument and the invoker
    image. *)
Theorem generateDockerfile_java :
  (forall opts : options.HandlerAwareInitOptions,
     generateDockerfile "java" opts
     = (javaDockerfile
          (filepath.Base (options.Artifact (options.toInitOptions opts)))
          (options.RiffVersion (options.toInitOptions opts))
          (options.Handler opts),
        None))
  /\ strings.Contains (fst (generateDockerfile "java" javaExample))
       "FUNCTION_CLASS=com.example.Fn" = true
  /\ strings.Contains (fst (generateDockerfile "java" javaExample))
       "projectriff/java-function-invoker:0.1" = true
  /\ snd (generateDockerfile "java" javaExample) = None.
Proof.
  split; [|repeat split; vm_compute; reflexivity].
  intros opts.
  change (generateDockerfile "java" opts) with (generateJavaFunctionDockerFile opts).
  unfold generateJavaFunctionDockerFile. now rewrite java_contents.
Qed.

(** C9.  The call leaves the caller's record as it was, and the result is
    the same for any two records that agree on the artifact, the Riff version
    and the handler: nothing else is read. *)
Theorem generateDockerfile_frame
  (language : string) (opts opts' : options.HandlerAwareInitOptions) :
  options.Artifact (options.toInitOptions opts)
    = options.Artifact (options.toInitOptions opts') ->
  options.RiffVersion (options.toInitOptions opts)
    = options.RiffVersion (options.toInitOptions opts') ->
  options.Handler opts = options.Handler opts' ->
  snd (callGenerateDockerfile language opts) = opts
  /\ fst (callGenerateDockerfile language opts) = generateDockerfile language opts
  /\ generateDockerfile language opts = generateDockerfile language opts'.
Proof.
  intros Ha Hr Hh. split; [reflexivity|]. split; [reflexivity|].
  unfold generateDockerfile, generateJavaFunctionDockerFile,
    generatePythonFunctionDockerFile, generateShellFunctionDockerFile,
    generateNodeFunctionDockerFile.
  rewrite Ha, Hr, Hh. reflexivity.
Qed.

(** Two records that differ in the function path and the protocol only. *)
Lemma generateDockerfile_frame_example :
  snd (callGenerateDockerfile "java" javaExample) = javaExample
  /\ fst (callGenerateDockerfile "java" javaExample)
     = generateDockerfile "java" javaExample
  /\ generateDockerfile "java" javaExample
     = generateDockerfile "java" javaExampleElsewhere.
Proof.
  apply (generateDockerfile_frame "java" javaExample javaExampleElsewhere);
    reflexivity.
Defined.

(** C10.  The four templates parse and name token fields only, rendering
    them never fails, and so the generator returns an error exactly when the
    language is not in the dispatch table. *)
Theorem generateDockerfile_error_iff_unsupported :
  forallb wellFormed
    [pythonFunctionDockerfileTemplate; nodeFunctionDockerfileTemplate;
     javaFunctionDockerfileTemplate; shellFunctionDockerfileTemplate] = true
  /\ (forall tokens,
        snd (generateFunctionDockerFileContents
               pythonFunctionDockerfileTemplate "docker-python" tokens) = None
        /\ snd (generateFunctionDockerFileContents
                  nodeFunctionDockerfileTemplate "docker-node" tokens) = None
        /\ snd (generateFunctionDockerFileContents
                  javaFunctionDockerfileTemplate "docker-java" tokens) = None
        /\ snd (generateFunctionDockerFileContents
                  shellFunctionDockerfileTemplate "docker-shell" tokens) = None)
  /\ (forall language opts,
        snd (generateDockerfile language opts) = None
        <-> In language supportedLanguages).
Proof.
  split; [vm_compute; reflexivity|]. split.
  - intros tokens.
    rewrite python_contents, node_contents, java_contents, shell_contents.
    repeat split.
  - intros language opts. unfold generateDockerfile.
    unfold generateJavaFunctionDockerFile, generatePythonFunctionDockerFile,
      generateShellFunctionDockerFile, generateNodeFunctionDockerFile.
    repeat match goal with
    | |- context [String.eqb language ?l] =>
        destruct (String.eqb_spec language l) as [->|?]
    end;
      rewrite ?python_contents, ?node_contents, ?java_contents, ?shell_contents;
      simpl; split; intros H; try reflexivity; try tauto; try discriminate H.
    intuition congruence.
Qed.

(** *** Beyond the claims *)

(** X7.  For python the generator returns, without error, the python
    Dockerfile at the basename of the artifact, the Riff version and the
    handler; the artifact's directory part does not show in it. *)
Theorem generateDockerfile_python (opts : options.HandlerAwareInitOptions) :
  generateDockerfile "python" opts
  = (pythonDockerfile
       (filepath.Base (options.Artifact (options.toInitOptions opts)))
       (options.RiffVersion (options.toInitOptions opts))
       (options.Handler opts),
     None).
Proof.
  change (generateDockerfile "python" opts)
    with (generatePythonFunctionDockerFile opts).
  unfold generatePythonFunctionDockerFile. now rewrite python_contents.
Qed.

(** X8.  For node, and for js alike, the generator returns, without error,
    the node Dockerfile at the artifact, its basename and the Riff version;
    the handler has no part in it. *)
Theorem generateDockerfile_node (opts : options.HandlerAwareInitOptions) :
  generateDockerfile "node" opts
  = (nodeDockerfile
       (options.Artifact (options.toInitOptions opts))
       (filepath.Base (options.Artifact (options.toInitOptions opts)))
       (options.RiffVersion (options.toInitOptions opts)),
     None)
  /\ generateDockerfile "js" opts = generateDockerfile "node" opts.
Proof.
  split; [|reflexivity].
  change (generateDockerfile "node" opts)
    with (generateNodeFunctionDockerFile (options.toInitOptions opts)).
  unfold generateNodeFunctionDockerFile. now rewrite node_contents.
Qed.

(** X9.  For shell the generator returns, without error, the shell
    Dockerfile at the artifact, its basename and the Riff version; the
    handler has no part in it. *)
Theorem generateDockerfile_shell (opts : options.HandlerAwareInitOptions) :
  generateDockerfile "shell" opts
  = (shellDockerfile
       (options.Artifact (options.toInitOptions opts))
       (filepath.Base (options.Artifact (options.toInitOptions opts)))
       (options.RiffVersion (options.toInitOptions opts)),
     None).
Proof.
  change (generateDockerfile "shell" opts)
    with (generateShellFunctionDockerFile (options.toInitOptions opts)).
  unfold generateShellFunctionDockerFile. now rewrite shell_contents.
Qed.

Lemma takeWhile_all (f : ascii -> bool) (l : list ascii) :
  forallb f (filepath.takeWhile f l) = true.
Proof.
  induction l as [|c l IH]; cbn; [reflexivity|].
  destruct (f c) eqn:Hc; cbn; [|reflexivity]. now rewrite Hc, IH.
Qed.

Lemma forallb_rev (f : ascii -> bool) (l : list ascii) :
  forallb f (rev l) = forallb f l.
Proof.
  induction l as [|c l IH]; cbn; [reflexivity|].
  rewrite forallb_app, IH. cbn. rewrite andb_true_r. apply andb_comm.
Qed.

(** X11.  The basename the generators put into [ArtifactBase] is never
    empty, and it is a single path element: it holds no separator, unless
    the artifact consists of separators only and the basename is the
    separator itself.  For the empty artifact it is the dot. *)
Theorem ArtifactBase_shape (artifact : string) :
  filepath.Base artifact <> ""
  /\ (filepath.Base artifact = "/"
      \/ forallb filepath.notSeparator
           (list_ascii_of_string (filepath.Base artifact)) = true)
  /\ filepath.Base "" = ".".
Proof.
  split; [|split; [|reflexivity]]; unfold filepath.Base;
    destruct (artifact =? ""); try discriminate; try (right; reflexivity);
    set (stripped := filepath.dropWhile filepath.IsPathSeparator
                       (rev (list_ascii_of_string artifact)));
    pose proof (takeWhile_all filepath.notSeparator stripped) as Hall;
    rewrite <- forallb_rev in Hall;
    destruct (rev (filepath.takeWhile filepath.notSeparator stripped))
      as [|c l]; try discriminate.
  - left. reflexivity.
  - right. rewrite list_ascii_of_string_of_list_ascii. exact Hall.
Qed.

End GenerateFacts.

(** ** The validator *)

Module ValidateFacts.
Import cmd ValidateSpec.

#[local] Arguments filepath.Clean : simpl never.
#[local] Arguments filepath.Join : simpl never.
#[local] Arguments filepath.Dir : simpl never.
#[local] Arguments filepath.IsAbs : simpl never.
#[local] Arguments filepath.Abs : simpl never.
#[local] Arguments strings.HasPrefix : simpl never.
#[local] Arguments strings.ToLower : simpl never.
#[local] Arguments String.eqb : simpl nomatch.

(** Unfolding the monad down to the conditions the source tests. *)
Ltac unfold_validator :=
  unfold validateAndCleanInitOptions, validate, checkPaths, checkArtifact,
    checkProtocol, FileExists, IsDirectory, Abs, bind, ret, when, returnError,
    getOptions, setFunctionPath, setArtifact, setProtocol, record;
  cbn.

(** Deciding one of those conditions with a fact at hand. *)
Ltac decide_with H := rewrite H; cbn.

(** *** The protocol field through the path checks *)

Lemma keeps_ret {A : Type} (a : A) : keepsProtocol (ret a).
Proof. intros s. reflexivity. Qed.

Lemma keeps_returnError {A : Type} (e : error) : keepsProtocol (@returnError A e).
Proof. intros s. reflexivity. Qed.

Lemma keeps_bind {A B : Type} (m : M A) (k : A -> M B) :
  keepsProtocol m -> (forall a, keepsProtocol (k a)) -> keepsProtocol (bind m k).
Proof.
  intros Hm Hk s. unfold bind. specialize (Hm s).
  destruct (m s) as [[a|e] s']; cbn in *.
  - now rewrite Hk.
  - exact Hm.
Qed.

Lemma keeps_when (b : bool) (m : M unit) :
  keepsProtocol m -> keepsProtocol (when b m).
Proof. intros Hm. destruct b; [exact Hm|apply keeps_ret]. Qed.

Lemma keeps_getOptions : keepsProtocol getOptions.
Proof. intros s. reflexivity. Qed.

Lemma keeps_setFunctionPath (v : string) : keepsProtocol (setFunctionPath v).
Proof. intros s. reflexivity. Qed.

Lemma keeps_setArtifact (v : string) : keepsProtocol (setArtifact v).
Proof. intros s. reflexivity. Qed.

Lemma keeps_record (c : Call) : keepsProtocol (record c).
Proof. intros s. reflexivity. Qed.

Ltac keeps :=
  repeat first
    [ apply keeps_ret | apply keeps_returnError | apply keeps_getOptions
    | apply keeps_setFunctionPath | apply keeps_setArtifact | apply keeps_record
    | apply keeps_when
    | apply keeps_bind; [|intros ?]
    | match goal with
      | |- keepsProtocol (match ?x with inl _ => _ | inr _ => _ end) => destruct x
      end ].

Lemma keeps_checkPaths (os : osutils.OS) : keepsProtocol (checkPaths os).
Proof.
  unfold checkPaths, checkArtifact, FileExists, IsDirectory, Abs. cbv zeta.
  keeps.
Qed.

(** *** The loop over the supported protocols *)

Lemma isSupported_acc (supportedProtocols : list string) (protocol : string)
  (acc : bool) :
  fold_left (fun supported p => if String.eqb protocol p then true else supported)
    supportedProtocols acc = true
  <-> acc = true \/ In protocol supportedProtocols.
Proof.
  revert acc. induction supportedProtocols as [|p l IH]; intros acc; cbn.
  - tauto.
  - rewrite IH. destruct (String.eqb_spec protocol p) as [->|Hne].
    + tauto.
    + split; [intros [H|H]; tauto|intros [H|[H|H]]; try tauto].
      now elim Hne.
Qed.

Lemma isSupported_In (supportedProtocols : list string) (protocol : string) :
  isSupported supportedProtocols protocol = true <-> In protocol supportedProtocols.
Proof.
  unfold isSupported. rewrite isSupported_acc. intuition discriminate.
Qed.

(** *** The validator as its two parts *)

Lemma validate_unfold (os : osutils.OS) (supportedProtocols : list string)
  (unicodeLower : string -> string)
  (opts : InitOptions) :
  validateAndCleanInitOptions os supportedProtocols unicodeLower opts
  = match checkPaths os {| options := opts; calls := [] |} with
    | (Next _, s') => protocolOutcome supportedProtocols unicodeLower s'
    | (Return err, s') =>
        {| result := Some err; after := options s'; trace := calls s' |}
    end.
Proof.
  unfold validateAndCleanInitOptions, validate, bind, protocolOutcome.
  destruct (checkPaths os {| options := opts; calls := [] |}) as [[[]|e] s'];
    [|reflexivity].
  unfold getOptions, checkProtocol, when, bind, setProtocol, ret, returnError.
  cbn. destruct (protocol (options s') =? ""); cbn; [reflexivity|].
  destruct (isSupported supportedProtocols (strings.ToLower unicodeLower (protocol (options s'))));
    reflexivity.
Qed.

(** *** The claims *)

(** C1.  The containment check compares strings: there are a directory, a
    sibling whose name extends its name, and a relative artifact resolving
    into the sibling, such that the prefix test holds where a test on path
    boundaries fails, and validation returns no error at all. *)
Theorem containment_is_prefix_test :
  exists (os : osutils.OS) (opts : InitOptions) (root absArtifactPath : string),
    artifact opts <> ""
    /\ filepath.IsAbs (artifact opts) = false
    /\ filepath.Abs (osutils.Getwd os) (filepath.Clean (functionPath opts))
       = inl root
    /\ osutils.IsDirectory os root = true
    /\ absArtifactPath = filepath.Join [root; filepath.Clean (artifact opts)]
    /\ osutils.FileExists os absArtifactPath = true
    /\ osutils.IsDirectory os absArtifactPath = false
    /\ filepath.Dir (filepath.Dir absArtifactPath) = filepath.Dir root
    /\ filepath.Dir absArtifactPath <> root
    /\ strings.HasPrefix (filepath.Base (filepath.Dir absArtifactPath))
         (filepath.Base root) = true
    /\ strings.HasPrefix (filepath.Dir absArtifactPath) root = true
    /\ withinTree root (filepath.Dir absArtifactPath) = false
    /\ forall supportedProtocols unicodeLower,
         result (validateAndCleanInitOptions os supportedProtocols unicodeLower opts) = None.
Proof.
  exists world, siblingOptions, "/a/b", "/a/bFoo/x".
  repeat split; try (vm_compute; reflexivity); vm_compute; discriminate.
Qed.

(** C2.  Without artifact and protocol the validator returns nil exactly when
    the cleaned function path exists, and the path-not-found error
    otherwise; no other error occurs. *)
Theorem validate_paths_only (os : osutils.OS) (supportedProtocols : list string)
  (unicodeLower : string -> string)
  (opts : InitOptions) :
  artifact opts = "" ->
  protocol opts = "" ->
  let out := validateAndCleanInitOptions os supportedProtocols unicodeLower opts in
  let cleaned := filepath.Clean (functionPath opts) in
  (result out = None <-> osutils.FileExists os cleaned = true)
  /\ (osutils.FileExists os cleaned = false ->
      result out = Some (errFilepathDoesNotExist cleaned))
  /\ (forall e, result out = Some e -> kind e = PathNotFound).
Proof.
  intros Ha Hp out cleaned. subst out cleaned.
  destruct opts as [fp a p rv]. simpl in Ha, Hp. subst a p.
  unfold_validator.
  decide_with Clean_eqb_empty.
  destruct (osutils.FileExists os (filepath.Clean fp)); cbn.
  - repeat split; try discriminate.
  - repeat split; try discriminate. intros e [= <-]. reflexivity.
Qed.

(** The directory [/a/b], given as [b/] from [/a]. *)
Lemma validate_paths_only_example :
  let out := validateAndCleanInitOptions world protocols asciiOnly plainOptions in
  let cleaned := filepath.Clean (functionPath plainOptions) in
  (result out = None <-> osutils.FileExists world cleaned = true)
  /\ (osutils.FileExists world cleaned = false ->
      result out = Some (errFilepathDoesNotExist cleaned))
  /\ (forall e, result out = Some e -> kind e = PathNotFound).
Proof.
  apply (validate_paths_only world protocols asciiOnly plainOptions); reflexivity.
Defined.

(** C3, as the claim has it, fails: with an absolute artifact and a function
    path that does not exist, the error is the one of the function path. *)
Lemma absolute_artifact_missing_path :
  filepath.IsAbs (filepath.Clean (artifact absoluteArtifactMissingPath)) = true
  /\ result (validateAndCleanInitOptions world protocols asciiOnly absoluteArtifactMissingPath)
     = Some (errFilepathDoesNotExist "/a/missing")
  /\ ~ (exists e,
          result (validateAndCleanInitOptions world protocols asciiOnly
                    absoluteArtifactMissingPath) = Some e
          /\ kind e = InvalidArtifact).
Proof.
  split; [vm_compute; reflexivity|]. split; [vm_compute; reflexivity|].
  intros [e [He Hk]]. vm_compute in He. injection He as <-. discriminate Hk.
Qed.

(** C3, amended.  With an absolute artifact the validator fails: with the
    invalid-artifact error when the cleaned function path exists, with the
    path-not-found error when it does not; in both cases the one call to the
    environment is the existence check of the function path, so the artifact
    is not looked up. *)
Theorem validate_absolute_artifact (os : osutils.OS)
  (supportedProtocols : list string)
  (unicodeLower : string -> string)
  (opts : InitOptions) :
  filepath.IsAbs (filepath.Clean (artifact opts)) = true ->
  let out := validateAndCleanInitOptions os supportedProtocols unicodeLower opts in
  let path := filepath.Clean (functionPath opts) in
  let cleaned := filepath.Clean (artifact opts) in
  result out
  = (if osutils.FileExists os path
     then Some (errArtifactMustBeRelative cleaned)
     else Some (errFilepathDoesNotExist path))
  /\ kind (errArtifactMustBeRelative cleaned) = InvalidArtifact
  /\ kind (errFilepathDoesNotExist path) = PathNotFound
  /\ trace out = [callFileExists path].
Proof.
  intros Habs out path cleaned. subst out path cleaned.
  destruct opts as [fp a p rv]. cbn in Habs.
  assert (Ha : String.eqb a "" = false).
  { destruct (String.eqb_spec a "") as [->|]; [|reflexivity].
    vm_compute in Habs. discriminate Habs. }
  unfold_validator.
  decide_with Ha. decide_with Clean_eqb_empty.
  destruct (osutils.FileExists os (filepath.Clean fp)); cbn.
  - decide_with Clean_eqb_empty. decide_with Habs. repeat split.
  - repeat split.
Qed.

(** An absolute artifact under the directory [/a/b]. *)
Lemma validate_absolute_artifact_example :
  let out := validateAndCleanInitOptions world protocols asciiOnly absoluteArtifact in
  let path := filepath.Clean (functionPath absoluteArtifact) in
  let cleaned := filepath.Clean (artifact absoluteArtifact) in
  result out
  = (if osutils.FileExists world path
     then Some (errArtifactMustBeRelative cleaned)
     else Some (errFilepathDoesNotExist path))
  /\ kind (errArtifactMustBeRelative cleaned) = InvalidArtifact
  /\ kind (errFilepathDoesNotExist path) = PathNotFound
  /\ trace out = [callFileExists path].
Proof.
  apply (validate_absolute_artifact world protocols asciiOnly absoluteArtifact).
  vm_compute. reflexivity.
Defined.

(** C4, as the claim has it, fails: the function is a regular file and the
    artifact resolves to another existing regular file, but in a directory
    that the containment check rejects first. *)
Lemma file_artifact_outside_tree :
  artifact fileAndFileOutside <> ""
  /\ filepath.Abs (osutils.Getwd world)
       (filepath.Clean (functionPath fileAndFileOutside)) = inl "/a/b/f.js"
  /\ osutils.FileExists world "/a/b/f.js" = true
  /\ osutils.IsDirectory world "/a/b/f.js" = false
  /\ filepath.Join [filepath.Dir "/a/b/f.js";
                    filepath.Clean (artifact fileAndFileOutside)] = "/a/c/g.js"
  /\ osutils.FileExists world "/a/c/g.js" = true
  /\ osutils.IsDirectory world "/a/c/g.js" = false
  /\ "/a/c/g.js" <> "/a/b/f.js"
  /\ result (validateAndCleanInitOptions world protocols asciiOnly fileAndFileOutside)
     = Some (errArtifactExternal "/a/c/g.js" "/a/b/f.js")
  /\ ~ (exists e,
          result (validateAndCleanInitOptions world protocols asciiOnly
                    fileAndFileOutside) = Some e
          /\ kind e = ArtifactConflict).
Proof.
  repeat split; try (vm_compute; reflexivity); try (vm_compute; discriminate).
  intros [e [He Hk]]. vm_compute in He. injection He as <-. discriminate Hk.
Qed.

(** C4, amended.  The function path is a regular file, the artifact is
    relative and resolves against the parent directory to an existing regular
    file whose directory has the parent directory as a prefix.  Then the
    validator fails with the conflict error when the two absolute paths
    differ; when they are equal the check passes, and what is left is the
    protocol check. *)
Theorem validate_file_artifact (os : osutils.OS)
  (supportedProtocols : list string) (unicodeLower : string -> string) (opts : InitOptions)
  (absFilePath absArtifactPath : string) :
  artifact opts <> "" ->
  osutils.FileExists os (filepath.Clean (functionPath opts)) = true ->
  filepath.IsAbs (filepath.Clean (artifact opts)) = false ->
  filepath.Abs (osutils.Getwd os) (filepath.Clean (functionPath opts))
    = inl absFilePath ->
  osutils.IsDirectory os absFilePath = false ->
  absArtifactPath
    = filepath.Join [filepath.Dir absFilePath; filepath.Clean (artifact opts)] ->
  osutils.IsDirectory os absArtifactPath = false ->
  osutils.FileExists os absArtifactPath = true ->
  strings.HasPrefix (filepath.Dir absArtifactPath) (filepath.Dir absFilePath) = true ->
  let out := validateAndCleanInitOptions os supportedProtocols unicodeLower opts in
  (absFilePath <> absArtifactPath ->
   result out = Some (errArtifactConflicts absArtifactPath absFilePath)
   /\ kind (errArtifactConflicts absArtifactPath absFilePath) = ArtifactConflict)
  /\ (absFilePath = absArtifactPath ->
      (protocol opts = "" -> result out = None)
      /\ (forall e, result out = Some e -> kind e = UnsupportedProtocol)).
Proof.
  intros Hne Hex Hrel Habs Hfile -> Hadir Haex Hpre out. subst out.
  destruct opts as [fp a p rv]. cbn in *.
  apply String.eqb_neq in Hne.
  unfold_validator.
  decide_with Hne. decide_with Clean_eqb_empty. decide_with Hex.
  decide_with Clean_eqb_empty. decide_with Hrel.
  destruct (filepath.IsAbs (filepath.Clean fp)); cbn;
    decide_with Habs; decide_with Hfile; decide_with Hadir;
    decide_with Hpre; decide_with Haex.
  all: destruct (String.eqb_spec absFilePath
         (filepath.Join [filepath.Dir absFilePath; filepath.Clean a]))
         as [Heq|Hdiff]; cbn.
  all: split; [intros H; try (now elim H); try (split; reflexivity)
              |intros H; try (now elim Hdiff)].
  all: destruct (p =? "") eqn:Hp; cbn.
  all: try (split; [reflexivity|discriminate]).
  all: split; [intros ->; discriminate Hp|].
  all: destruct (isSupported supportedProtocols (strings.ToLower unicodeLower p)); cbn;
    try discriminate.
  all: intros e [= <-]; reflexivity.
Qed.

(** The function [/a/b/f.js] with the artifact [g.js] next to it. *)
Lemma validate_file_artifact_example :
  let out := validateAndCleanInitOptions world protocols asciiOnly fileAndOtherFile in
  ("/a/b/f.js" <> "/a/b/g.js" ->
   result out = Some (errArtifactConflicts "/a/b/g.js" "/a/b/f.js")
   /\ kind (errArtifactConflicts "/a/b/g.js" "/a/b/f.js") = ArtifactConflict)
  /\ ("/a/b/f.js" = "/a/b/g.js" ->
      (protocol fileAndOtherFile = "" -> result out = None)
      /\ (forall e, result out = Some e -> kind e = UnsupportedProtocol)).
Proof.
  apply (validate_file_artifact world protocols asciiOnly fileAndOtherFile
           "/a/b/f.js" "/a/b/g.js");
    try (vm_compute; reflexivity).
  vm_compute. discriminate.
Defined.

(** The two runs side by side: another file conflicts, the same file passes. *)
Example file_artifact_runs :
  result (validateAndCleanInitOptions world protocols asciiOnly fileAndOtherFile)
  = Some (errArtifactConflicts "/a/b/g.js" "/a/b/f.js")
  /\ result (validateAndCleanInitOptions world protocols asciiOnly fileAndSameFile) = None
  /\ artifact (after (validateAndCleanInitOptions world protocols asciiOnly fileAndSameFile))
     = "f.js".
Proof. vm_compute. repeat split. Qed.

(** C5, as the claim has it, fails: when the function path does not exist
    the validator returns before the protocol block, and the protocol stays
    in capitals. *)
Lemma protocol_untouched_on_missing_path :
  protocol upperProtocolMissingPath <> ""
  /\ In (strings.ToLower asciiOnly (protocol upperProtocolMissingPath)) protocols
  /\ result (validateAndCleanInitOptions world protocols asciiOnly upperProtocolMissingPath)
     = Some (errFilepathDoesNotExist "/a/missing")
  /\ protocol (after (validateAndCleanInitOptions world protocols asciiOnly
                        upperProtocolMissingPath)) = "HTTP"
  /\ protocol (after (validateAndCleanInitOptions world protocols asciiOnly
                        upperProtocolMissingPath))
     <> strings.ToLower asciiOnly (protocol upperProtocolMissingPath).
Proof.
  repeat split; try (vm_compute; reflexivity); try (vm_compute; discriminate).
  vm_compute. tauto.
Qed.

(** C5, amended.  When the protocol is not empty and the path checks have
    passed, the validator stores the lower-cased protocol in the record and
    returns nil exactly when that value is among the supported protocols,
    the unsupported-protocol error otherwise; so HTTP passes and becomes
    http when http is supported.  When a path check has failed, the
    validator returns that error and the protocol is as it was given. *)
Theorem validate_protocol (os : osutils.OS) (supportedProtocols : list string)
  (unicodeLower : string -> string) (opts : InitOptions) :
  protocol opts <> "" ->
  let out := validateAndCleanInitOptions os supportedProtocols unicodeLower opts in
  let lowered := strings.ToLower unicodeLower (protocol opts) in
  (fst (checkPaths os {| options := opts; calls := [] |}) = Next tt ->
   protocol (after out) = lowered
   /\ (result out = None <-> In lowered supportedProtocols)
   /\ (~ In lowered supportedProtocols ->
       result out = Some (errProtocolUnsupported lowered))
   /\ (forall e, result out = Some e -> kind e = UnsupportedProtocol)
   /\ (protocol opts = "HTTP" -> In "http" supportedProtocols ->
       result out = None /\ protocol (after out) = "http"))
  /\ (forall e,
        fst (checkPaths os {| options := opts; calls := [] |}) = Return e ->
        result out = Some e /\ protocol (after out) = protocol opts).
Proof.
  intros Hne out lowered. subst out lowered.
  pose proof (keeps_checkPaths os {| options := opts; calls := [] |}) as Hkeep.
  rewrite validate_unfold.
  destruct (checkPaths os {| options := opts; calls := [] |}) as [[[]|e] s'];
    cbn in Hkeep; cbn [fst].
  - split; [intros _|intros e He; discriminate He].
    unfold protocolOutcome.
    rewrite Hkeep, (proj2 (String.eqb_neq _ _) Hne). cbv zeta.
    pose proof (isSupported_In supportedProtocols
                  (strings.ToLower unicodeLower (protocol opts))) as Hsup.
    destruct (isSupported supportedProtocols
                (strings.ToLower unicodeLower (protocol opts)));
      cbn [result after protocol].
    + assert (Hin : In (strings.ToLower unicodeLower (protocol opts))
                      supportedProtocols) by now apply Hsup.
      split; [reflexivity|]. split; [tauto|]. split; [tauto|].
      split; [discriminate|].
      intros ->. split; reflexivity.
    + assert (Hin : ~ In (strings.ToLower unicodeLower (protocol opts))
                        supportedProtocols).
      { intros H. apply Hsup in H. discriminate H. }
      split; [reflexivity|]. split; [split; [discriminate|tauto]|].
      split; [reflexivity|]. split; [intros e [= <-]; reflexivity|].
      intros Hp Hhttp. exfalso. apply Hin. rewrite Hp. exact Hhttp.
  - split; [intros H; discriminate H|].
    intros e' [= <-]. cbn. split; [reflexivity|exact Hkeep].
Qed.

(** The protocol HTTP on the directory [/a/b]. *)
Lemma validate_protocol_example :
  let out := validateAndCleanInitOptions world protocols asciiOnly upperProtocol in
  let lowered := strings.ToLower asciiOnly (protocol upperProtocol) in
  (fst (checkPaths world {| options := upperProtocol; calls := [] |}) = Next tt ->
   protocol (after out) = lowered
   /\ (result out = None <-> In lowered protocols)
   /\ (~ In lowered protocols ->
       result out = Some (errProtocolUnsupported lowered))
   /\ (forall e, result out = Some e -> kind e = UnsupportedProtocol)
   /\ (protocol upperProtocol = "HTTP" -> In "http" protocols ->
       result out = None /\ protocol (after out) = "http"))
  /\ (forall e,
        fst (checkPaths world {| options := upperProtocol; calls := [] |})
        = Return e ->
        result out = Some e /\ protocol (after out) = protocol upperProtocol).
Proof.
  apply (validate_protocol world protocols asciiOnly upperProtocol).
  vm_compute. discriminate.
Defined.

(** The two sides of it on concrete runs, and a protocol that is not ASCII:
    what the record then holds is what the library's Unicode mapping makes
    of it. *)
Example protocol_runs (unicodeLower : string -> string) :
  let upper := "HTTP" ++ String "195" (String "137" "") in
  let lower := "http" ++ String "195" (String "169" "") in
  let opts := {| functionPath := "/a/b"; artifact := "";
                 protocol := upper; riffVersion := "0.1" |} in
  protocol (after (validateAndCleanInitOptions world protocols unicodeLower
                     upperProtocol)) = "http"
  /\ result (validateAndCleanInitOptions world protocols unicodeLower
               upperProtocol) = None
  /\ protocol (after (validateAndCleanInitOptions world protocols unicodeLower
                        upperProtocolMissingPath)) = "HTTP"
  /\ (unicodeLower upper = lower ->
      result (validateAndCleanInitOptions world [lower] unicodeLower opts)
      = None
      /\ protocol (after (validateAndCleanInitOptions world [lower]
                            unicodeLower opts)) = lower).
Proof.
  intros upper lower opts.
  split; [reflexivity|]. split; [reflexivity|]. split; [reflexivity|].
  intros H. rewrite validate_unfold.
  match goal with
  | |- context [checkPaths ?w ?s] =>
      let v := eval vm_compute in (checkPaths w s) in
      change (checkPaths w s) with v
  end.
  cbv beta iota. unfold protocolOutcome. cbn [options protocol].
  change (String.eqb (String "H" (String "T" (String "T" (String "P"
            (String "195" (String "137" "")))))) "") with false.
  cbv beta iota zeta.
  change (strings.ToLower unicodeLower
            (String "H" (String "T" (String "T" (String "P"
               (String "195" (String "137" "")))))))
    with (unicodeLower upper).
  rewrite H. unfold isSupported. cbn [fold_left].
  rewrite String.eqb_refl. split; reflexivity.
Qed.

(** *** Beyond the claims: what a run of the validator establishes *)

Lemma Abs_error (getwd : string + string) (path cause : string) :
  filepath.Abs getwd path = inr cause ->
  filepath.IsAbs path = false /\ getwd = inr cause.
Proof.
  unfold filepath.Abs. destruct (filepath.IsAbs path); [discriminate|].
  destruct getwd as [wd|err]; [discriminate|].
  intros [= ->]. split; reflexivity.
Qed.

Ltac settle := repeat split; try reflexivity; try assumption.

(** The checks on the resolved artifact, one condition after the other, once
    the absolute function path [f] is known. *)
Ltac artifact_tail os f :=
  destruct (osutils.IsDirectory os f) eqn:Hdir; cbn;
  match goal with
  | |- context [osutils.IsDirectory os ?x] =>
      destruct (osutils.IsDirectory os x) eqn:Hadir; cbn;
      [repeat split; try assumption; try (exists f);
       repeat split; rewrite ?Hdir; settle|]
  end;
  match goal with
  | |- context [strings.HasPrefix ?x ?y] =>
      destruct (strings.HasPrefix x y) eqn:Hpre; cbn;
      [|repeat split; rewrite ?Hdir; settle]
  end;
  match goal with
  | |- context [osutils.FileExists os ?x] =>
      destruct (osutils.FileExists os x) eqn:Haex; cbn;
      [|repeat split; try assumption; try (exists f);
        repeat split; rewrite ?Hdir; settle]
  end;
  try match goal with
  | |- context [String.eqb f ?y] =>
      destruct (String.eqb_spec f y) as [Heq|Hdiff]; cbn;
      [|repeat split; rewrite ?Hdir; settle]
  end;
  (split; [reflexivity|]; intros _; split; [reflexivity|];
   exists f; repeat split; rewrite ?Hdir; settle; intros; congruence).

(** The path checks either pass, and then every condition they test holds,
    or return an error whose cause holds. *)
Lemma checkPaths_cases (os : osutils.OS) (supportedProtocols : list string)
  (unicodeLower : string -> string)
  (opts : InitOptions) :
  match fst (checkPaths os {| options := opts; calls := [] |}) with
  | Next _ => pathsOk os opts
  | Return e => errorCause os supportedProtocols unicodeLower opts e
  end.
Proof.
  destruct opts as [fp a p rv].
  unfold pathsOk, errorCause, resolveArtifact, containmentRoot.
  unfold checkPaths, checkArtifact, FileExists, IsDirectory, Abs, bind, ret,
    when, returnError, getOptions, setFunctionPath, setArtifact, record.
  cbn.
  destruct (a =? "") eqn:Ha; cbn;
    [apply String.eqb_eq in Ha|apply String.eqb_neq in Ha];
    decide_with Clean_eqb_empty;
    destruct (osutils.FileExists os (filepath.Clean fp)) eqn:Hex; cbn.
  - subst a. cbn. split; [reflexivity|]. intros H. now elim H.
  - split; [reflexivity|assumption].
  - decide_with Clean_eqb_empty.
    destruct (filepath.IsAbs (filepath.Clean a)) eqn:Hrel; cbn; [settle|].
    destruct (filepath.IsAbs (filepath.Clean fp)) eqn:Hfp; cbn;
      destruct (filepath.Abs (osutils.Getwd os) (filepath.Clean fp))
        as [f|cause] eqn:Habs; cbn.
    + artifact_tail os f.
    + apply Abs_error in Habs. destruct Habs as [Hn Hg]. congruence.
    + artifact_tail os f.
    + apply Abs_error in Habs. destruct Habs as [Hn Hg]. settle.
  - split; [reflexivity|assumption].
Qed.


(** The same walk through the conditions of the path checks, for goals about
    the state they leave; [leaf] closes each end of a run. *)
Ltac walk_tail os f leaf :=
  destruct (osutils.IsDirectory os f) eqn:Hdir; cbn;
  match goal with
  | |- context [osutils.IsDirectory os ?x] =>
      destruct (osutils.IsDirectory os x) eqn:Hadir; cbn; [leaf|]
  end;
  match goal with
  | |- context [strings.HasPrefix ?x ?y] =>
      destruct (strings.HasPrefix x y) eqn:Hpre; cbn; [|leaf]
  end;
  match goal with
  | |- context [osutils.FileExists os ?x] =>
      destruct (osutils.FileExists os x) eqn:Haex; cbn; [|leaf]
  end;
  try match goal with
  | |- context [String.eqb f ?y] =>
      destruct (String.eqb f y) eqn:Heq; cbn
  end;
  leaf.

Ltac walk_paths os fp a leaf :=
  unfold checkPaths, checkArtifact, FileExists, IsDirectory, Abs, bind, ret,
    when, returnError, getOptions, setFunctionPath, setArtifact, record;
  cbn;
  destruct (a =? "") eqn:Ha; cbn;
  [apply String.eqb_eq in Ha; subst; cbn|];
  decide_with Clean_eqb_empty;
  (destruct (osutils.FileExists os (filepath.Clean fp)) eqn:Hex; cbn);
  [ leaf
  | leaf
  | decide_with Clean_eqb_empty;
    (destruct (filepath.IsAbs (filepath.Clean a)) eqn:Hrel; cbn); [leaf|];
    (destruct (filepath.IsAbs (filepath.Clean fp)) eqn:Hfp; cbn);
    (destruct (filepath.Abs (osutils.Getwd os) (filepath.Clean fp))
       eqn:Habs; cbn);
    match goal with
    | H : filepath.Abs _ _ = inl ?f |- _ => walk_tail os f leaf
    | _ => leaf
    end
  | leaf ].

(** The record and the calls the path checks leave: the record is the
    cleaned one, and the calls are the first part of the script up to the
    lookup of the failing check, all of it when the checks pass. *)
Lemma checkPaths_state (os : osutils.OS) (opts : InitOptions) :
  let run := checkPaths os {| options := opts; calls := [] |} in
  options (snd run) = cleanedOptions opts
  /\ (exists rest, script os opts = (calls (snd run) ++ rest)%list)
  /\ (exists more,
        calls (snd run)
        = callFileExists (filepath.Clean (functionPath opts)) :: more)
  /\ (fst run = Next tt -> calls (snd run) = script os opts)
  /\ calls (snd run)
     = firstn (callsMade os opts (returnedError (fst run))) (script os opts).
Proof.
  destruct opts as [fp a p rv].
  unfold callsMade, cleanedOptions, script, resolveArtifact, containmentRoot.
  cbn [functionPath artifact protocol riffVersion].
  walk_paths os fp a
    ltac:(rewrite ?Hfp, ?Hdir; cbn;
          split; [reflexivity|];
          split; [eexists; reflexivity|];
          split; [eexists; reflexivity|];
          split; [intros; try reflexivity; discriminate|reflexivity]).
Qed.


(** The path checks return none of the protocol block's errors. *)
Lemma checkPaths_no_protocol_error (os : osutils.OS) (opts : InitOptions)
  (s' : State) (p : string) :
  checkPaths os {| options := opts; calls := [] |}
  <> (Return (errProtocolUnsupported p), s').
Proof.
  intros Hrun.
  pose proof (checkPaths_cases os [strings.ToLower (fun s => s) (protocol opts)]
                (fun s => s) opts) as Hc.
  rewrite Hrun in Hc. cbn in Hc. destruct Hc as [-> Hnot].
  apply Hnot. left. reflexivity.
Qed.

(** X1.  Validation succeeds exactly when the cleaned function path exists,
    the artifact (if any) is relative and resolves to an existing file that
    is no directory, lies under the containment root by the prefix test and,
    for a function path that is a file, is that file, and the protocol (if
    any) is supported once lower-cased. *)
Theorem validate_succeeds_iff (os : osutils.OS)
  (supportedProtocols : list string)
  (unicodeLower : string -> string)
  (opts : InitOptions) :
  result (validateAndCleanInitOptions os supportedProtocols unicodeLower opts) = None
  <-> pathsOk os opts
      /\ (protocol opts <> "" ->
          In (strings.ToLower unicodeLower (protocol opts)) supportedProtocols).
Proof.
  rewrite validate_unfold.
  pose proof (checkPaths_cases os [strings.ToLower unicodeLower (protocol opts)]
                unicodeLower opts) as Hc.
  pose proof (keeps_checkPaths os {| options := opts; calls := [] |}) as Hkeep.
  destruct (checkPaths os {| options := opts; calls := [] |}) as [[[]|e] s'];
    cbn in Hc, Hkeep.
  - unfold protocolOutcome. rewrite Hkeep.
    destruct (String.eqb_spec (protocol opts) "") as [Hp|Hp]; cbn.
    + split; [|reflexivity]. intros _. split; [exact Hc|]. intros H. now elim H.
    + pose proof (isSupported_In supportedProtocols
                    (strings.ToLower unicodeLower (protocol opts))) as Hsup.
      destruct (isSupported supportedProtocols (strings.ToLower unicodeLower (protocol opts)));
        cbn.
      * split; [|reflexivity]. intros _. split; [exact Hc|]. intros _.
        now apply Hsup.
      * split; [discriminate|]. intros [_ Hin]. apply Hin, Hsup in Hp.
        discriminate Hp.
  - cbn. split; [discriminate|]. intros [[Hex Hart] _]. exfalso.
    destruct e as [p0|a0|cause|a0|a0 f0|a0|a0 f0|p0]; cbn in Hc.
    + destruct Hc as [-> Hf]. congruence.
    + destruct Hc as [Hne [-> Habs]]. destruct (Hart Hne) as [Hrel _].
      congruence.
    + destruct Hc as [Hne [Hn Hg]]. destruct (Hart Hne) as [_ [f [Hf _]]].
      unfold filepath.Abs in Hf. rewrite Hn, Hg in Hf. discriminate Hf.
    + destruct Hc as [Hne [f [Hf [-> Hd]]]].
      destruct (Hart Hne) as [_ [f' [Hf' [Hd' _]]]].
      rewrite Hf in Hf'. injection Hf' as <-. congruence.
    + destruct Hc as [Hne [Hf [-> Hp]]].
      destruct (Hart Hne) as [_ [f' [Hf' [_ [Hp' _]]]]].
      rewrite Hf in Hf'. injection Hf' as <-. congruence.
    + destruct Hc as [Hne [f [Hf [-> Hd]]]].
      destruct (Hart Hne) as [_ [f' [Hf' [_ [_ [Hx' _]]]]]].
      rewrite Hf in Hf'. injection Hf' as <-. congruence.
    + destruct Hc as [Hne [Hf [-> [Hd Hdiff]]]].
      destruct (Hart Hne) as [_ [f' [Hf' [_ [_ [_ Hsame]]]]]].
      rewrite Hf in Hf'. injection Hf' as <-. apply Hdiff, Hsame, Hd.
    + destruct Hc as [-> Hnot]. apply Hnot. left. reflexivity.
Qed.

(** X2.  Every error tells its cause: the value it carries is the path or
    protocol the failed check looked at, and the condition of that check
    holds of the environment. *)
Theorem validate_error_cause (os : osutils.OS)
  (supportedProtocols : list string) (unicodeLower : string -> string) (opts : InitOptions) (e : error) :
  result (validateAndCleanInitOptions os supportedProtocols unicodeLower opts) = Some e ->
  errorCause os supportedProtocols unicodeLower opts e.
Proof.
  rewrite validate_unfold.
  pose proof (checkPaths_cases os supportedProtocols unicodeLower opts) as Hc.
  pose proof (keeps_checkPaths os {| options := opts; calls := [] |}) as Hkeep.
  destruct (checkPaths os {| options := opts; calls := [] |}) as [[[]|e'] s'];
    cbn in Hc, Hkeep.
  - unfold protocolOutcome. rewrite Hkeep.
    destruct (protocol opts =? ""); cbn; [discriminate|].
    pose proof (isSupported_In supportedProtocols
                  (strings.ToLower unicodeLower (protocol opts))) as Hsup.
    destruct (isSupported supportedProtocols (strings.ToLower unicodeLower (protocol opts)));
      cbn; [discriminate|].
    intros [= <-]. cbn. split; [reflexivity|].
    intros Hin. apply Hsup in Hin. discriminate Hin.
  - cbn. intros [= <-]. exact Hc.
Qed.

(** An artifact that is not there, under the directory [/a/b]. *)
Lemma validate_error_cause_example :
  errorCause world protocols asciiOnly directoryMissingArtifact
    (errArtifactDoesNotExist "/a/b/h.js").
Proof.
  apply (validate_error_cause world protocols asciiOnly directoryMissingArtifact).
  vm_compute. reflexivity.
Defined.

(** X3.  The record after the call, whatever the result: the function path
    and a non-empty artifact are cleaned, the Riff version is untouched, and
    the protocol is lower-cased exactly when the protocol block was
    reached. *)
Theorem validate_after (os : osutils.OS) (supportedProtocols : list string)
  (unicodeLower : string -> string)
  (opts : InitOptions) :
  let out := validateAndCleanInitOptions os supportedProtocols unicodeLower opts in
  functionPath (after out) = filepath.Clean (functionPath opts)
  /\ functionPath (after out) <> ""
  /\ artifact (after out)
     = (if String.eqb (artifact opts) "" then ""
        else filepath.Clean (artifact opts))
  /\ riffVersion (after out) = riffVersion opts
  /\ protocol (after out) = protocolAfter unicodeLower opts (result out).
Proof.
  intros out. subst out. rewrite validate_unfold.
  pose proof (checkPaths_state os opts) as [Hopts _].
  pose proof (checkPaths_no_protocol_error os opts) as Hno.
  destruct (checkPaths os {| options := opts; calls := [] |}) as [[[]|e] s'];
    cbn in Hopts.
  - unfold protocolOutcome. rewrite Hopts. cbn.
    destruct (String.eqb_spec (protocol opts) "") as [Hp|Hp]; cbn.
    + repeat split; try apply Clean_nonempty. rewrite Hp. reflexivity.
    + destruct (isSupported supportedProtocols (strings.ToLower unicodeLower (protocol opts)));
        cbn; repeat split; apply Clean_nonempty.
  - cbn. rewrite Hopts. cbn. repeat split; try apply Clean_nonempty.
    destruct e; try reflexivity. exfalso. eapply Hno. reflexivity.
Qed.

(** X4.  The calls to the environment follow one script and stop at the
    first failing check: the calls made are exactly the first part of the
    script that ends with the lookup of the check that failed, and all of it
    when no lookup fails; the first call is the existence check of the
    cleaned function path, and the protocol block makes no call.  Without
    artifact that first call is the only one, and for a function path given
    absolute the working directory is never asked. *)
Theorem validate_trace (os : osutils.OS) (supportedProtocols : list string)
  (unicodeLower : string -> string)
  (opts : InitOptions) :
  let out := validateAndCleanInitOptions os supportedProtocols unicodeLower opts in
  (exists more,
     trace out = callFileExists (filepath.Clean (functionPath opts)) :: more)
  /\ (exists rest, script os opts = (trace out ++ rest)%list)
  /\ trace out = firstn (callsMade os opts (result out)) (script os opts)
  /\ (result out = None -> trace out = script os opts)
  /\ (artifact opts = "" ->
      trace out = [callFileExists (filepath.Clean (functionPath opts))])
  /\ (filepath.IsAbs (functionPath opts) = true ->
      ~ In callGetwd (trace out)).
Proof.
  intros out. subst out.
  pose proof (checkPaths_state os opts) as [_ [Hpre [Hfirst [Hall Hexact]]]].
  cbv zeta in *.
  assert (Hmade :
    callsMade os opts
      (result (validateAndCleanInitOptions os supportedProtocols unicodeLower opts))
    = callsMade os opts
        (returnedError (fst (checkPaths os {| options := opts; calls := [] |})))).
  { rewrite validate_unfold.
    destruct (checkPaths os {| options := opts; calls := [] |})
      as [[[]|e] s']; [|reflexivity].
    unfold protocolOutcome. cbn.
    destruct (protocol (options s') =? ""); [reflexivity|]. cbn.
    destruct (isSupported supportedProtocols
                (strings.ToLower unicodeLower (protocol (options s'))));
      reflexivity. }
  assert (Htrace :
    trace (validateAndCleanInitOptions os supportedProtocols unicodeLower opts)
    = calls (snd (checkPaths os {| options := opts; calls := [] |}))).
  { rewrite validate_unfold.
    destruct (checkPaths os {| options := opts; calls := [] |})
      as [[[]|e] s']; [|reflexivity].
    unfold protocolOutcome. cbn.
    destruct (protocol (options s') =? ""); reflexivity. }
  assert (Hres :
    result (validateAndCleanInitOptions os supportedProtocols unicodeLower opts) = None ->
    fst (checkPaths os {| options := opts; calls := [] |}) = Next tt).
  { rewrite validate_unfold.
    destruct (checkPaths os {| options := opts; calls := [] |})
      as [[[]|e] s']; [reflexivity|discriminate]. }
  rewrite Htrace, Hmade.
  split; [exact Hfirst|]. split; [exact Hpre|]. split; [exact Hexact|]. split.
  - intros Hnone. apply Hall, Hres, Hnone.
  - destruct Hfirst as [more Hmore]. destruct Hpre as [rest Hrest].
    unfold script in Hrest. rewrite Hmore in *. split.
    + intros Ha. rewrite Ha in Hrest. cbn in Hrest.
      injection Hrest as Hrest. destruct more; [reflexivity|discriminate Hrest].
    + intros Habs Hin. rewrite <- CleanFacts.IsAbs_Clean in Habs.
      assert (Hscript : In callGetwd (script os opts)).
      { unfold script. rewrite Hrest. apply in_or_app. left. exact Hin. }
      unfold script in Hscript. rewrite Habs in Hscript.
      destruct Hscript as [H|Hscript]; [discriminate H|].
      destruct (artifact opts =? ""); [destruct Hscript|].
      cbn in Hscript.
      destruct (filepath.Abs (osutils.Getwd os)
                  (filepath.Clean (functionPath opts)));
        cbn in Hscript; intuition discriminate.
Qed.

(** A run on the directory [/a/b] given relative to the working directory:
    the artifact loses its leading dot, the protocol its capitals. *)
Example directory_artifact_run :
  validateAndCleanInitOptions world protocols asciiOnly directoryArtifact
  = {| result := None;
       after := {| functionPath := "b"; artifact := "f.js";
                   protocol := "grpc"; riffVersion := "0.1" |};
       trace := [callFileExists "b"; callGetwd; callIsDirectory "/a/b";
                 callIsDirectory "/a/b/f.js"; callIsDirectory "/a/b";
                 callFileExists "/a/b/f.js"; callIsDirectory "/a/b"] |}.
Proof. vm_compute. reflexivity. Qed.

(** *** The hook that calls the validator *)

(** X5.  The hook rejects the arguments, printing them and the usage and
    exiting with status 1, exactly when there is an argument and it is not
    the only one or the function path was already given by flag. *)
Theorem preRun_rejects_arguments (os : osutils.OS)
  (supportedProtocols : list string) (unicodeLower : string -> string)
  (cwd : string) (loaded : InitOptions)
  (args : list string) :
  PersistentPreRun os supportedProtocols unicodeLower cwd loaded args
  = exited 1 [printedInvalidArguments args; printedUsage]
  <-> args <> []
      /\ (List.length args <> 1 \/ functionPath loaded <> "").
Proof.
  unfold PersistentPreRun.
  destruct args as [|arg [|arg' args]]; cbn [List.length Nat.ltb Nat.leb Nat.eqb nth andb].
  - split.
    + destruct (result _); discriminate.
    + intros [H _]. now elim H.
  - destruct (String.eqb_spec (functionPath loaded) "") as [Hp|Hp].
    + split.
      * destruct (result _); discriminate.
      * intros [_ [H|H]]; [now elim H|contradiction].
    + split; [|reflexivity]. intros _. split; [discriminate|]. right. exact Hp.
  - split; [|reflexivity]. intros _. split; [discriminate|]. left.
    cbn. discriminate.
Qed.

(** What a successful validation establishes and leaves, as the hook below
    needs it. *)
Lemma success_record (os : osutils.OS) (supportedProtocols : list string)
  (unicodeLower : string -> string)
  (opts : InitOptions) :
  result (validateAndCleanInitOptions os supportedProtocols unicodeLower opts) = None ->
  pathsOk os opts
  /\ (protocol opts <> "" ->
      In (strings.ToLower unicodeLower (protocol opts)) supportedProtocols)
  /\ functionPath (after (validateAndCleanInitOptions os supportedProtocols unicodeLower opts))
     = filepath.Clean (functionPath opts)
  /\ protocol (after (validateAndCleanInitOptions os supportedProtocols unicodeLower opts))
     = strings.ToLower unicodeLower (protocol opts)
  /\ riffVersion (after (validateAndCleanInitOptions os supportedProtocols unicodeLower opts))
     = riffVersion opts.
Proof.
  rewrite validate_unfold.
  pose proof (checkPaths_cases os supportedProtocols unicodeLower opts) as Hc.
  pose proof (checkPaths_state os opts) as [Hopts _].
  destruct (checkPaths os {| options := opts; calls := [] |}) as [[[]|e] s'];
    cbn in Hc, Hopts; [|discriminate].
  unfold protocolOutcome. rewrite Hopts. cbn.
  destruct (String.eqb_spec (protocol opts) "") as [Hp|Hp]; cbn.
  - intros _. split; [exact Hc|]. split; [intros H; now elim H|].
    split; [reflexivity|]. split; [now rewrite Hp|reflexivity].
  - pose proof (isSupported_In supportedProtocols
                  (strings.ToLower unicodeLower (protocol opts))) as Hsup.
    destruct (isSupported supportedProtocols (strings.ToLower unicodeLower (protocol opts)));
      cbn; [|discriminate].
    intros _. split; [exact Hc|]. split; [intros _; now apply Hsup|].
    repeat split.
Qed.

(** X6.  When the hook returns, its record holds the cleaned chosen path
    (flag, else the one argument, else the working directory), that path
    exists, every condition of a successful validation holds of the chosen
    record, and the protocol is stored lower-cased. *)
Theorem preRun_returned (os : osutils.OS) (supportedProtocols : list string)
  (unicodeLower : string -> string)
  (cwd : string) (loaded : InitOptions) (args : list string)
  (initOptions : InitOptions) :
  PersistentPreRun os supportedProtocols unicodeLower cwd loaded args = returned initOptions ->
  let chosen := withFunctionPath loaded (chosenPath cwd loaded args) in
  List.length args <= 1
  /\ functionPath initOptions = filepath.Clean (chosenPath cwd loaded args)
  /\ osutils.FileExists os (functionPath initOptions) = true
  /\ pathsOk os chosen
  /\ protocol initOptions = strings.ToLower unicodeLower (protocol loaded)
  /\ (protocol loaded <> "" -> In (protocol initOptions) supportedProtocols)
  /\ riffVersion initOptions = riffVersion loaded.
Proof.
  intros Hrun chosen. unfold PersistentPreRun in Hrun.
  assert (Hchosen :
    List.length args <= 1
    /\ result (validateAndCleanInitOptions os supportedProtocols unicodeLower chosen) = None
    /\ initOptions
       = after (validateAndCleanInitOptions os supportedProtocols unicodeLower chosen)).
  { subst chosen. unfold chosenPath.
    destruct args as [|arg [|arg' args]];
      cbn [List.length Nat.ltb Nat.leb Nat.eqb nth andb] in Hrun.
    - destruct (String.eqb_spec (functionPath loaded) "") as [Hp|Hp].
      + destruct (result _) eqn:Hr; [discriminate Hrun|].
        injection Hrun as <-. repeat split; auto.
      + replace (withFunctionPath loaded (functionPath loaded)) with loaded
          by (destruct loaded; reflexivity).
        destruct (result _) eqn:Hr; [discriminate Hrun|].
        injection Hrun as <-. repeat split; auto.
    - destruct (String.eqb_spec (functionPath loaded) "") as [Hp|Hp];
        [|discriminate Hrun].
      cbn [functionPath withFunctionPath] in Hrun.
      destruct (String.eqb_spec arg "") as [Ha|Ha].
      + destruct (result _) eqn:Hr; [discriminate Hrun|].
        injection Hrun as <-. repeat split; auto.
      + destruct (result _) eqn:Hr; [discriminate Hrun|].
        injection Hrun as <-. repeat split; auto.
    - discriminate Hrun. }
  destruct Hchosen as [Hlen [Hnone ->]].
  destruct (success_record os supportedProtocols unicodeLower chosen Hnone)
    as [Hok [Hin [Hfp [Hproto Hrv]]]].
  split; [exact Hlen|]. split; [exact Hfp|]. split.
  { rewrite Hfp. exact (proj1 Hok). }
  split; [exact Hok|]. split; [exact Hproto|]. split; [|exact Hrv].
  intros Hne. rewrite Hproto. apply Hin. exact Hne.
Qed.

(** No flag but the protocol and no argument, run from [/a]. *)
Lemma preRun_returned_example :
  let chosen := withFunctionPath onlyProtocol (chosenPath "/a" onlyProtocol []) in
  List.length (@nil string) <= 1
  /\ functionPath {| functionPath := "/a"; artifact := "";
                     protocol := "http"; riffVersion := "0.1" |}
     = filepath.Clean (chosenPath "/a" onlyProtocol [])
  /\ osutils.FileExists world
       (functionPath {| functionPath := "/a"; artifact := "";
                        protocol := "http"; riffVersion := "0.1" |}) = true
  /\ pathsOk world chosen
  /\ protocol {| functionPath := "/a"; artifact := "";
                 protocol := "http"; riffVersion := "0.1" |}
     = strings.ToLower asciiOnly (protocol onlyProtocol)
  /\ (protocol onlyProtocol <> "" ->
      In (protocol {| functionPath := "/a"; artifact := "";
                      protocol := "http"; riffVersion := "0.1" |}) protocols)
  /\ riffVersion {| functionPath := "/a"; artifact := "";
                    protocol := "http"; riffVersion := "0.1" |}
     = riffVersion onlyProtocol.
Proof.
  apply (preRun_returned world protocols asciiOnly "/a" onlyProtocol []).
  vm_compute. reflexivity.
Defined.


(** With an artifact that is absolute once cleaned, the result is decided by
    the existence of the function path alone. *)
Lemma absolute_artifact_result (os : osutils.OS)
  (supportedProtocols : list string)
  (unicodeLower : string -> string)
  (opts : InitOptions) :
  filepath.IsAbs (filepath.Clean (artifact opts)) = true ->
  artifact opts <> "" ->
  result (validateAndCleanInitOptions os supportedProtocols unicodeLower opts)
  = if osutils.FileExists os (filepath.Clean (functionPath opts))
    then Some (errArtifactMustBeRelative (filepath.Clean (artifact opts)))
    else Some (errFilepathDoesNotExist (filepath.Clean (functionPath opts))).
Proof.
  intros Habs Hne. destruct opts as [fp a p rv]. cbn in Habs, Hne.
  apply String.eqb_neq in Hne.
  unfold_validator.
  decide_with Hne. decide_with Clean_eqb_empty.
  destruct (osutils.FileExists os (filepath.Clean fp)); cbn; [|reflexivity].
  decide_with Clean_eqb_empty. decide_with Habs. reflexivity.
Qed.

(** X12.  The error that the artifact must be relative is returned exactly
    when the cleaned function path exists and the artifact, as given, starts
    with the separator; it carries the cleaned artifact. *)
Theorem validate_rejects_absolute_iff (os : osutils.OS)
  (supportedProtocols : list string) (unicodeLower : string -> string)
  (opts : InitOptions) (a : string) :
  result (validateAndCleanInitOptions os supportedProtocols unicodeLower opts)
  = Some (errArtifactMustBeRelative a)
  <-> osutils.FileExists os (filepath.Clean (functionPath opts)) = true
      /\ filepath.IsAbs (artifact opts) = true
      /\ a = filepath.Clean (artifact opts).
Proof.
  split.
  - intros Hres.
    assert (Hcause : artifact opts <> "" /\ a = filepath.Clean (artifact opts)
                     /\ filepath.IsAbs a = true).
    { pose proof Hres as Hrun. rewrite validate_unfold in Hrun.
      pose proof (checkPaths_cases os supportedProtocols unicodeLower opts) as Hc.
      destruct (checkPaths os {| options := opts; calls := [] |})
        as [[[]|e] s']; cbn in Hc.
      - unfold protocolOutcome in Hrun.
        destruct (protocol (options s') =? ""); [discriminate Hrun|].
        cbn in Hrun.
        destruct (isSupported supportedProtocols
                    (strings.ToLower unicodeLower (protocol (options s'))));
          discriminate Hrun.
      - cbn in Hrun. injection Hrun as ->. exact Hc. }
    destruct Hcause as [Hne [-> Habs]].
    rewrite (absolute_artifact_result os supportedProtocols unicodeLower opts Habs Hne)
      in Hres.
    rewrite CleanFacts.IsAbs_Clean in Habs.
    destruct (osutils.FileExists os (filepath.Clean (functionPath opts)));
      [|discriminate Hres].
    repeat split. exact Habs.
  - intros [Hex [Habs ->]].
    assert (Hne : artifact opts <> "").
    { intros H. rewrite H in Habs. discriminate Habs. }
    rewrite <- CleanFacts.IsAbs_Clean in Habs.
    rewrite (absolute_artifact_result os supportedProtocols unicodeLower opts Habs Hne).
    now rewrite Hex.
Qed.

End ValidateFacts.
